(** * tensorlayer layers: atrous convolution and normalization

    A shallow embedding of [tensorlayer/layers/convolution/atrous_conv.py]
    and [tensorlayer/layers/normalization.py].

    The layers are thin wrappers that validate their configuration, read
    and write attributes of [self], and ask TensorFlow to add variables and
    operations to a graph.  The embedding therefore has two parts:

    - a small model of the Python run time the wrappers rely on: dynamically
      typed values, exceptions, attribute and name lookup, and an effect
      monad threading the variable store and the attributes of [self];
    - the wrappers themselves, one Rocq module per Python class, each
      method written statement by statement in that monad.

    TensorFlow is external to the repository.  Its operations are modelled
    as graph construction: every call returns a fresh symbolic node and
    [tf.get_variable] appends to the variable store.  Errors raised inside
    TensorFlow are outside the model; errors raised by the Python code of
    the wrappers (explicit [raise], failed lookups, calling [None],
    division by zero) are inside.  Strings are ASCII text and numbers are
    exact.

    The function [atrous_conv1d] only forwards its arguments to
    [Conv1dLayer], which lives in another file, and is not embedded. *)

From Stdlib Require Import ZArith QArith Reals Lra Lia String Ascii List Bool.
From Stdlib Require Import DecimalString.
From stdpp Require Import gmap strings.

#[local] Set Warnings "-register-all".

Local Open Scope string_scope.
Local Open Scope list_scope.
Local Open Scope Z_scope.

(** * Python run-time model *)

Module Py.

(** Exception classes raised by the code under study. *)
Inductive exc_class :=
| Exception
| ValueError
| TypeError
| NameError
| AttributeError
| KeyError
| IndexError
| ZeroDivisionError.

(** An exception is its class and its message. *)
Record exn := Exn { exn_class : exc_class; exn_msg : string }.

Inductive res (A : Type) :=
| Ok (a : A)
| Raise (e : exn).
Arguments Ok {A} a.
Arguments Raise {A} e.

#[global] Instance exc_class_eq_dec : EqDecision exc_class.
Proof. solve_decision. Defined.

#[global] Instance exn_eq_dec : EqDecision exn.
Proof. solve_decision. Defined.

Definition res_bind {A B} (r : res A) (k : A -> res B) : res B :=
  match r with
  | Ok a => k a
  | Raise e => Raise e
  end.

Definition is_ok {A} (r : res A) : bool :=
  match r with Ok _ => true | Raise _ => false end.

#[global] Instance res_ret : MRet res := @Ok.
#[global] Instance res_mbind : MBind res := fun A B k r => res_bind r k.

(** A static dimension: [None] is an unknown size. *)
Definition dim := option Z.

(** Dynamically typed values.  Tensors are nodes of the TensorFlow
    graph: the operation, its arguments and the static shape.
    Initializers and activation functions are opaque callables. *)
Inductive value :=
| VNone
| VBool (b : bool)
| VInt (z : Z)
| VFloat (q : Q)
| VStr (s : string)
| VList (vs : list value)
| VDict (kvs : list (string * value))
| VTensor (op : string) (args : list value) (shape : list dim)
| VCallable (name : string) (args : list value)
| VObject (cls : string) (attrs : list (string * value)).

(** Truth value of an object, as tested by [if x:]. *)
Definition truthy (v : value) : bool :=
  match v with
  | VNone => false
  | VBool b => b
  | VInt z => negb (z =? 0)
  | VFloat q => negb (Qeq_bool q 0)
  | VStr s => negb (String.eqb s "")
  | VList vs => match vs with [] => false | _ => true end
  | VDict kvs => match kvs with [] => false | _ => true end
  | VTensor _ _ _ => true
  | VCallable _ _ => true
  | VObject _ _ => true
  end.

Definition is_none (v : value) : bool :=
  match v with VNone => true | _ => false end.

(** The name Python prints for the type of a value. *)
Definition type_name (v : value) : string :=
  match v with
  | VNone => "NoneType"
  | VBool _ => "bool"
  | VInt _ => "int"
  | VFloat _ => "float"
  | VStr _ => "str"
  | VList _ => "list"
  | VDict _ => "dict"
  | VTensor _ _ _ => "Tensor"
  | VCallable _ _ => "function"
  | VObject cls _ => cls
  end.

(** ** Strings *)

(** [str.upper] on ASCII text: the letters a-z are mapped to A-Z and
    every other character is kept. *)
Definition upper_ascii (c : ascii) : ascii :=
  let n := nat_of_ascii c in
  if ((97 <=? n) && (n <=? 122))%nat then ascii_of_nat (n - 32) else c.

Fixpoint upper (s : string) : string :=
  match s with
  | EmptyString => EmptyString
  | String c s' => String (upper_ascii c) (upper s')
  end.

(** [x in l] for a list of strings. *)
Definition str_in (x : string) (l : list string) : bool :=
  existsb (String.eqb x) l.

(** ** Integers *)

(** [a // b] and [a % b] on Python integers: floor division, the
    remainder takes the sign of the divisor, and a zero divisor raises. *)
Definition floordiv (a b : Z) : res Z :=
  if b =? 0 then Raise (Exn ZeroDivisionError "integer division or modulo by zero")
  else Ok (a / b).

Definition mod_ (a b : Z) : res Z :=
  if b =? 0 then Raise (Exn ZeroDivisionError "integer division or modulo by zero")
  else Ok (a mod b).

(** ** Numbers *)

(** ['%d' % z] *)
Definition format_d (z : Z) : string := NilZero.string_of_int (Z.to_int z).

(** [x < y] on numbers given exactly. *)
Definition lt (x y : Q) : bool := negb (Qle_bool y x).

(** ** Sequences *)

(** [l[i]]: negative indices count from the end, out of range raises. *)
Definition getitem {A} (l : list A) (i : Z) : res A :=
  let n := Z.of_nat (length l) in
  let j := if i <? 0 then i + n else i in
  if (j <? 0) || (n <=? j) then Raise (Exn IndexError "list index out of range")
  else match nth_error l (Z.to_nat j) with
       | Some x => Ok x
       | None => Raise (Exn IndexError "list index out of range")
       end.

(** [range(n)] *)
Definition range (n : nat) : list Z := map Z.of_nat (seq 0 n).

(** Lookup in an association list, first match. *)
Fixpoint assoc {A} (k : string) (l : list (string * A)) : option A :=
  match l with
  | [] => None
  | (k', v) :: l' => if String.eqb k k' then Some v else assoc k l'
  end.

(** [d[k]] on a dict literal. *)
Definition dict_getitem {A} (d : list (string * A)) (k : string) : res A :=
  match assoc k d with
  | Some v => Ok v
  | None => Raise (Exn KeyError k)
  end.

End Py.
Export Py.

(** * Effects: the variable store, the registry and [self] *)

Module Eff.

(** A variable of the TensorFlow variable store. *)
Record tf_variable := TfVariable {
  var_name : string;
  var_shape : value;
  var_initializer : value;
  var_trainable : bool
}.

(** What a method can read and change: TensorFlow's variable store and
    the stack of open variable scopes, the layer outputs and parameters
    registered so far, the log, and the attributes of [self]. *)
Record state := State {
  variables : list tf_variable;
  scopes : list string;
  graph : list value;
  params : list value;
  log : list string;
  self : gmap string value
}.

Definition set_variables (f : list tf_variable -> list tf_variable) (s : state) : state :=
  State (f (variables s)) (scopes s) (graph s) (params s) (log s) (self s).
Definition set_scopes (f : list string -> list string) (s : state) : state :=
  State (variables s) (f (scopes s)) (graph s) (params s) (log s) (self s).
Definition set_graph (f : list value -> list value) (s : state) : state :=
  State (variables s) (scopes s) (f (graph s)) (params s) (log s) (self s).
Definition set_params (f : list value -> list value) (s : state) : state :=
  State (variables s) (scopes s) (graph s) (f (params s)) (log s) (self s).
Definition set_log (f : list string -> list string) (s : state) : state :=
  State (variables s) (scopes s) (graph s) (params s) (f (log s)) (self s).
Definition set_self (f : gmap string value -> gmap string value) (s : state) : state :=
  State (variables s) (scopes s) (graph s) (params s) (log s) (f (self s)).

(** A state in which a fresh object is being constructed: [self] has no
    attribute yet. *)
Definition fresh (s : state) : state := set_self (fun _ => ∅) s.

Definition empty_state : state := State [] [] [] [] [] ∅.

(** A computation returns a value or raises, and in both cases leaves a
    state behind: what was done before a [raise] stays done. *)
Definition M (A : Type) : Type := state -> res A * state.

Definition ret {A} (a : A) : M A := fun s => (Ok a, s).

Definition bind {A B} (m : M A) (k : A -> M B) : M B :=
  fun s => match m s with
           | (Ok a, s') => k a s'
           | (Raise e, s') => (Raise e, s')
           end.

Definition raise {A} (e : exn) : M A := fun s => (Raise e, s).

Definition lift {A} (r : res A) : M A := fun s => (r, s).

Definition get : M state := fun s => (Ok s, s).

Definition modify (f : state -> state) : M unit := fun s => (Ok tt, f s).

(** The outcome and the final state of a run. *)
Definition outcome {A} (m : M A) (s : state) : res A := fst (m s).
Definition final {A} (m : M A) (s : state) : state := snd (m s).

Definition raises {A} (m : M A) (s : state) : Prop :=
  exists e, outcome m s = Raise e.

Definition returns {A} (m : M A) (s : state) : Prop :=
  exists a, outcome m s = Ok a.

End Eff.
Export Eff.

(** The monad operations under stdpp's notations [x ← m; k] and [m;; k]. *)
#[global] Instance M_ret : MRet M := @ret.
#[global] Instance M_bind : MBind M := fun A B k m => bind m k.

(** ** Attributes and names *)

Module Obj.

(** [self.name]: the attribute if the object has it. *)
Definition getattr (cls name : string) : M value :=
  fun s =>
    match self s !! name with
    | Some v => (Ok v, s)
    | None =>
        (Raise (Exn AttributeError
                  ("'" +:+ cls +:+ "' object has no attribute '" +:+ name +:+ "'")),
         s)
    end.

(** [self.name = v] *)
Definition setattr (name : string) (v : value) : M unit :=
  modify (set_self (fun d => <[name := v]> d)).

(** [o.name] on an object other than [self]. *)
Definition getattr_of (o : value) (name : string) : res value :=
  match o with
  | VObject cls attrs =>
      match assoc name attrs with
      | Some v => Ok v
      | None =>
          Raise (Exn AttributeError
                   ("'" +:+ cls +:+ "' object has no attribute '" +:+ name +:+ "'"))
      end
  | _ =>
      Raise (Exn AttributeError
               ("'" +:+ type_name o +:+ "' object has no attribute '" +:+ name +:+ "'"))
  end.

(** [f(x)]: only callables can be called. *)
Definition call (f : value) (x : value) : res value :=
  match f with
  | VCallable name args =>
      match x with
      | VTensor _ _ shape => Ok (VTensor name (args ++ [x]) shape)
      | _ => Ok (VTensor name (args ++ [x]) [])
      end
  | _ => Raise (Exn TypeError ("'" +:+ type_name f +:+ "' object is not callable"))
  end.

(** [v[i]] on a list value. *)
Definition index (v : value) (i : Z) : res value :=
  match v with
  | VList vs => getitem vs i
  | _ => Raise (Exn TypeError ("'" +:+ type_name v +:+ "' object is not subscriptable"))
  end.

(** [**d]: the argument after [**] must be a mapping. *)
Definition unpack (v : value) : res (list (string * value)) :=
  match v with
  | VDict kvs => Ok kvs
  | _ => Raise (Exn TypeError "argument after ** must be a mapping")
  end.

(** [a + b] on strings. *)
Definition str_add (a : value) (b : string) : res string :=
  match a with
  | VStr s => Ok (s +:+ b)
  | _ => Raise (Exn TypeError
                  ("unsupported operand type(s) for +: '" +:+ type_name a +:+ "' and 'str'"))
  end.

End Obj.

(** * TensorFlow as graph construction *)

Module tf.

(** The name of a variable under the open scopes, innermost first. *)
Definition scoped_name (scopes : list string) (name : string) : string :=
  fold_left (fun acc sc => sc +:+ "/" +:+ acc) scopes name.

(** The static shape a shape argument denotes. *)
Definition to_dim (v : value) : dim :=
  match v with VInt z => Some z | _ => None end.

Definition to_shape (v : value) : list dim :=
  match v with
  | VList vs => map to_dim vs
  | _ => [to_dim v]
  end.

Definition of_dim (d : dim) : value :=
  match d with Some z => VInt z | None => VNone end.

(** [tf.get_variable(name, shape, initializer=..., trainable=...)] *)
Definition get_variable (name : string) (shape initializer : value)
    (trainable : bool) : M value :=
  fun s =>
    let full := scoped_name (scopes s) name in
    (Ok (VTensor "Variable" [VStr full] (to_shape shape)),
     set_variables (fun vs => vs ++ [TfVariable full shape initializer trainable]) s).

(** [with tf.variable_scope(name): body]; the scope is left again
    whether the body returns or raises. *)
Definition variable_scope {A} (name : string) (body : M A) : M A :=
  fun s =>
    let saved := scopes s in
    let (r, s') := body (set_scopes (cons name) s) in
    (r, set_scopes (fun _ => saved) s').

(** An initializer class, e.g. [tf.zeros_initializer], and an instance
    of one, e.g. [tf.constant_initializer(value=0.0)]. *)
Definition initializer_class (name : string) : value := VCallable name [].

Definition initializer (name : string) (args : list value) : value :=
  VCallable (name +:+ "()") args.

Definition instantiate (c : value) : value :=
  match c with
  | VCallable name args => VCallable (name +:+ "()") args
  | _ => c
  end.

(** A node of the graph. *)
Definition op (name : string) (args : list value) (shape : list dim) : value :=
  VTensor name args shape.

(** [t.get_shape()] *)
Definition get_shape (t : value) : res (list dim) :=
  match t with
  | VTensor _ _ shape => Ok shape
  | _ => Raise (Exn AttributeError
                  ("'" +:+ type_name t +:+ "' object has no attribute 'get_shape'"))
  end.

(** [t.dtype] *)
Definition dtype (t : value) : res unit :=
  match t with
  | VTensor _ _ _ => Ok tt
  | _ => Raise (Exn AttributeError
                  ("'" +:+ type_name t +:+ "' object has no attribute 'dtype'"))
  end.

Definition shape_of (t : value) : list dim :=
  match t with VTensor _ _ shape => shape | _ => [] end.

(** [int(d)] on a dimension: an unknown dimension has no integer value. *)
Definition int_of_dim (d : dim) : res Z :=
  match d with
  | Some z => Ok z
  | None => Raise (Exn TypeError "__int__ returned non-int (type NoneType)")
  end.

(** A scope name must be a string. *)
Definition scope_name (v : value) : res string :=
  match v with
  | VStr s => Ok s
  | _ => Raise (Exn TypeError
                  ("VariableScope: name_or_scope must be a string, not " +:+ type_name v))
  end.

(** Static shape of a convolution output: batch kept, spatial sizes left
    to the run time, channels as given. *)
Definition conv_shape (input : value) (channels : value) : list dim :=
  match shape_of input with
  | b :: _ => [b; None; None; to_dim channels]
  | [] => [None; None; None; to_dim channels]
  end.

End tf.

(** * The layer base class *)

Module Layer.

(** Modelled from the spec: the shared base class of the layers
    (tensorlayer/layers/core.py) is outside the excerpt.  Its constructor
    records the static configuration it is given as attributes of [self];
    when the configuration names a previous layer, the layer takes that
    layer's output as its input.  An argument dictionary that is not
    given is recorded as the empty dictionary, since the subclasses
    unpack it with [**] when they compile.  It allocates nothing. *)
Definition init_attr (k : string) (v : value) : value :=
  if str_in k ["prev_layer"; "act"; "name"] then v
  else if is_none v then VDict [] else v.

(** Modelled from the spec: the constructor of the base class, taking the
    keyword arguments the subclasses pass it, in their order. *)
Fixpoint __init__ (kwargs : list (string * value)) : M unit :=
  match kwargs with
  | [] => ret tt
  | (k, v) :: rest =>
      Obj.setattr k (init_attr k v);;
      (if String.eqb k "prev_layer"
       then (o ← lift (Obj.getattr_of v "outputs"); Obj.setattr "inputs" o)
       else ret tt);;
      __init__ rest
  end.

(** Modelled from the spec: compiling against a previous layer takes
    that layer's output tensor as the input of this layer. *)
Definition _parse_inputs (prev_layer : value) : M unit :=
  o ← lift (Obj.getattr_of prev_layer "outputs");
  Obj.setattr "inputs" o.

(** Modelled from the spec: the base [compile] composes the layer with
    the previous layer's output. *)
Definition compile (prev_layer : value) : M unit :=
  _parse_inputs prev_layer.

(** Modelled from the spec: weights live in the framework's variable
    store; the helper asks the framework for the variable and remembers
    it among the weights of this layer. *)
Definition _get_tf_variable (name : string) (shape initializer : value)
    (kwargs : list (string * value)) : M value :=
  w ← tf.get_variable name shape initializer true;
  s ← get;
  let old := match self s !! "_local_weights" with
             | Some (VList ws) => ws
             | _ => []
             end in
  Obj.setattr "_local_weights" (VList (old ++ [w]));;
  ret w.

(** Modelled from the spec: the activation function reference of the
    configuration is applied to the output when there is one. *)
Definition _apply_activation (cls : string) (x : value) : M value :=
  act ← Obj.getattr cls "act";
  if is_none act then ret x else lift (Obj.call act x).

(** Modelled from the spec: the output tensor of a layer is entered
    into the computation graph the layers compose. *)
Definition _add_layers (outputs : value) : M unit :=
  modify (set_graph (fun g => g ++ [outputs])).

(** Modelled from the spec: the variables of a layer are entered into
    the parameters of the graph. *)
Definition _add_params (ws : value) : M unit :=
  modify (set_params (fun p => p ++ match ws with VList l => l | _ => [ws] end)).

(** Modelled from the spec: the newer spelling of [_add_params]. *)
Definition add_weights (ws : list value) : M unit :=
  modify (set_params (fun p => p ++ ws)).

(** Modelled from the spec: a constructed layer is applied to an input
    tensor; it takes the tensor as its input, is built against it, which
    allocates the weights, and produces its output tensor. *)
Definition __call__ (build : value -> M unit) (forward : value -> M value)
    (inputs : value) : M value :=
  Obj.setattr "inputs" inputs;;
  build inputs;;
  outputs ← forward inputs;
  Obj.setattr "outputs" outputs;;
  ret outputs.

End Layer.

(** [tensorlayer.logging.info]: the line is recorded by its template. *)
Definition logging_info (template : string) : M unit :=
  modify (set_log (fun l => l ++ [template])).

(** * tensorlayer/layers/convolution/atrous_conv.py *)

Module AtrousConv2dLayer.

Definition cls : string := "AtrousConv2dLayer".

(** The arguments of the constructor.  The [deprecated_alias] decorator
    only renames the keyword [layer] to [prev_layer]. *)
Record kwargs := Kwargs {
  prev_layer : value;
  n_filter : value;
  filter_size : value;
  rate : value;
  padding : string;
  W_init : value;
  b_init : value;
  W_init_args : value;
  b_init_args : value;
  act : value;
  name : value
}.

Definition defaults : kwargs := {|
  prev_layer := VNone;
  n_filter := VInt 32;
  filter_size := VList [VInt 3; VInt 3];
  rate := VInt 2;
  padding := "SAME";
  W_init := tf.initializer "tf.truncated_normal_initializer" [VFloat (2 # 100)];
  b_init := tf.initializer "tf.constant_initializer" [VFloat 0];
  W_init_args := VNone;
  b_init_args := VNone;
  act := VNone;
  name := VStr "atrous_2d"
|}.

Definition padding_error : exn :=
  Exn ValueError "`padding` value is not valid, should be either: 'SAME' or 'VALID'".

Definition __init__ (a : kwargs) : M unit :=
  let padding := upper (padding a) in
  if negb (str_in padding ["SAME"; "VALID"]) then raise padding_error
  else
    Obj.setattr "prev_layer" (prev_layer a);;
    Obj.setattr "n_filter" (n_filter a);;
    Obj.setattr "filter_size" (filter_size a);;
    Obj.setattr "rate" (rate a);;
    Obj.setattr "padding" (VStr padding);;
    Obj.setattr "W_init" (W_init a);;
    Obj.setattr "b_init" (b_init a);;
    Obj.setattr "act" (act a);;
    Obj.setattr "name" (name a);;
    Layer.__init__ [("W_init_args", W_init_args a); ("b_init_args", b_init_args a)].

Definition compile (prev_layer : value) : M unit :=
  Layer.compile prev_layer;;
  name ← Obj.getattr cls "name";
  scope ← lift (tf.scope_name name);
  tf.variable_scope scope (
    filter_size ← Obj.getattr cls "filter_size";
    f0 ← lift (Obj.index filter_size 0);
    f1 ← lift (Obj.index filter_size 1);
    inputs ← Obj.getattr cls "inputs";
    in_shape ← lift (tf.get_shape inputs);
    d ← lift (getitem in_shape (-1));
    c ← lift (tf.int_of_dim d);
    n_filter ← Obj.getattr cls "n_filter";
    let shape := VList [f0; f1; VInt c; n_filter] in
    W_init ← Obj.getattr cls "W_init";
    inputs ← Obj.getattr cls "inputs";
    lift (tf.dtype inputs);;
    W_init_args ← Obj.getattr cls "W_init_args";
    W_kw ← lift (Obj.unpack W_init_args);
    weight_matrix ← Layer._get_tf_variable "W_atrous_conv2d" shape W_init W_kw;
    inputs ← Obj.getattr cls "inputs";
    rate ← Obj.getattr cls "rate";
    padding ← Obj.getattr cls "padding";
    Obj.setattr "outputs"
      (tf.op "tf.nn.atrous_conv2d" [inputs; weight_matrix; rate; padding]
         (tf.conv_shape inputs n_filter));;
    b_init ← Obj.getattr cls "b_init";
    (if truthy b_init then
       n_filter ← Obj.getattr cls "n_filter";
       b_init ← Obj.getattr cls "b_init";
       inputs ← Obj.getattr cls "inputs";
       lift (tf.dtype inputs);;
       b_init_args ← Obj.getattr cls "b_init_args";
       b_kw ← lift (Obj.unpack b_init_args);
       b ← Layer._get_tf_variable "b_atrous_conv2d" (VList [n_filter]) b_init b_kw;
       outputs ← Obj.getattr cls "outputs";
       Obj.setattr "outputs"
         (tf.op "tf.nn.bias_add" [outputs; b] (tf.shape_of outputs))
     else ret tt);;
    outputs ← Obj.getattr cls "outputs";
    outputs ← Layer._apply_activation cls outputs;
    Obj.setattr "outputs" outputs);;
  outputs ← Obj.getattr cls "outputs";
  Layer._add_layers outputs;;
  ws ← Obj.getattr cls "_local_weights";
  Layer._add_params ws.

End AtrousConv2dLayer.

Module AtrousDeConv2dLayer.

Definition cls : string := "AtrousDeConv2dLayer".

Record kwargs := Kwargs {
  prev_layer : value;
  shape : value;
  rate : value;
  padding : string;
  W_init : value;
  b_init : value;
  W_init_args : value;
  b_init_args : value;
  act : value;
  name : value
}.

Definition defaults : kwargs := {|
  prev_layer := VNone;
  shape := VList [VInt 3; VInt 3; VInt 128; VInt 256];
  rate := VInt 2;
  padding := "SAME";
  W_init := tf.initializer "tf.truncated_normal_initializer" [VFloat (2 # 100)];
  b_init := tf.initializer "tf.constant_initializer" [VFloat 0];
  W_init_args := VNone;
  b_init_args := VNone;
  act := VNone;
  name := VStr "atrous_2d_transpose"
|}.

Definition padding_error : exn :=
  Exn ValueError "`padding` value is not valid, should be either: 'SAME' or 'VALID'".

Definition __init__ (a : kwargs) : M unit :=
  let padding := upper (padding a) in
  if negb (str_in padding ["SAME"; "VALID"]) then raise padding_error
  else
    Obj.setattr "prev_layer" (prev_layer a);;
    Obj.setattr "shape" (shape a);;
    Obj.setattr "rate" (rate a);;
    Obj.setattr "padding" (VStr padding);;
    Obj.setattr "W_init" (W_init a);;
    Obj.setattr "b_init" (b_init a);;
    Obj.setattr "act" (act a);;
    Obj.setattr "name" (name a);;
    Layer.__init__ [("W_init_args", W_init_args a); ("b_init_args", b_init_args a)].

(** Modelled from the spec: [compute_deconv2d_output_shape]
    (tensorlayer/layers/utils.py) is outside the excerpt; it is the shape
    inference of the wrapper, and its result is only handed on to the
    framework, so it is kept as a symbolic value of its arguments. *)
Definition compute_deconv2d_output_shape (args : list value) : value :=
  VCallable "compute_deconv2d_output_shape" args.

Definition compile (prev_layer : value) : M unit :=
  Layer._parse_inputs prev_layer;;
  name ← Obj.getattr cls "name";
  scope ← lift (tf.scope_name name);
  tf.variable_scope scope (
    shape ← Obj.getattr cls "shape";
    W_init ← Obj.getattr cls "W_init";
    inputs ← Obj.getattr cls "inputs";
    lift (tf.dtype inputs);;
    W_init_args ← Obj.getattr cls "W_init_args";
    W_kw ← lift (Obj.unpack W_init_args);
    weight_matrix ← Layer._get_tf_variable "W_atrous_conv2d_transpose" shape W_init W_kw;
    inputs ← Obj.getattr cls "inputs";
    shape ← Obj.getattr cls "shape";
    s0 ← lift (Obj.index shape 0);
    s1 ← lift (Obj.index shape 1);
    s2 ← lift (Obj.index shape 2);
    padding ← Obj.getattr cls "padding";
    Obj.setattr "out_shape"
      (compute_deconv2d_output_shape
         [inputs; s0; s1; VInt 1; VInt 1; s2; padding; VStr "NHWC"]);;
    inputs ← Obj.getattr cls "inputs";
    out_shape ← Obj.getattr cls "out_shape";
    rate ← Obj.getattr cls "rate";
    padding ← Obj.getattr cls "padding";
    Obj.setattr "outputs"
      (tf.op "tf.nn.atrous_conv2d_transpose"
         [inputs; weight_matrix; out_shape; rate; padding]
         (tf.conv_shape inputs s2));;
    b_init ← Obj.getattr cls "b_init";
    (if truthy b_init then
       shape ← Obj.getattr cls "shape";
       sm2 ← lift (Obj.index shape (-2));
       b_init ← Obj.getattr cls "b_init";
       inputs ← Obj.getattr cls "inputs";
       lift (tf.dtype inputs);;
       b_init_args ← Obj.getattr cls "b_init_args";
       b_kw ← lift (Obj.unpack b_init_args);
       b ← Layer._get_tf_variable "b_atrous_conv2d_transpose" sm2 b_init b_kw;
       outputs ← Obj.getattr cls "outputs";
       Obj.setattr "outputs"
         (tf.op "tf.nn.bias_add" [outputs; b] (tf.shape_of outputs))
     else ret tt);;
    outputs ← Obj.getattr cls "outputs";
    outputs ← Layer._apply_activation cls outputs;
    Obj.setattr "outputs" outputs);;
  Layer.compile prev_layer;;
  outputs ← Obj.getattr cls "outputs";
  Layer._add_layers outputs;;
  ws ← Obj.getattr cls "_local_weights";
  Layer._add_params ws.

End AtrousDeConv2dLayer.

(** * tensorlayer/layers/normalization.py *)

(** ** The tensor operations used by the normalization helpers

    The helpers are written against the operators of tensors.  They are
    embedded once, over this interface, and used at two instances: graph
    nodes (what the layers build) and arrays of real numbers (what the
    nodes compute, in exact arithmetic). *)

Class TensorOps (T S : Type) := {
  t_mul : T -> T -> T;            (* x * y, broadcasting *)
  t_add : T -> T -> T;            (* tf.add(x, y), x + y *)
  t_sub : T -> T -> T;            (* x - y *)
  t_neg : T -> T;                 (* -x *)
  t_add_scalar : T -> S -> T;     (* x + s for a Python number s *)
  t_rsqrt : T -> T;               (* math_ops.rsqrt *)
  t_cast : T -> T -> T;           (* math_ops.cast(x, y.dtype) *)
  t_dim0 : T -> res Z;            (* int(x.shape[0]) *)
  t_reshape : T -> list Z -> T    (* tf.reshape *)
}.

Section Helpers.

Context {T S : Type} `{TensorOps T S}.

(** Reshape [c] to [c, 1, 1]. *)
Definition _to_channel_first_bias (b : T) : res T :=
  channel_size ← t_dim0 b;
  let new_shape := [channel_size; 1; 1] in
  mret (t_reshape b new_shape).

(** The multiplication counter part of [tf.nn.bias_add]. *)
Definition _bias_scale (x b : T) (data_format : string) : res T :=
  if String.eqb data_format "NHWC" then mret (t_mul x b)
  else if String.eqb data_format "NCHW" then
    b' ← _to_channel_first_bias b; mret (t_mul x b')
  else Raise (Exn ValueError ("invalid data_format: " +:+ data_format)).

Definition _bias_add (x b : T) (data_format : string) : res T :=
  if String.eqb data_format "NHWC" then mret (t_add x b)
  else if String.eqb data_format "NCHW" then
    b' ← _to_channel_first_bias b; mret (t_add x b')
  else Raise (Exn ValueError ("invalid data_format: " +:+ data_format)).

(** Data format aware version of [tf.nn.batch_normalization]. *)
Definition batch_normalization (x mean variance : T) (offset scale : option T)
    (variance_epsilon : S) (data_format : string) : res T :=
  let inv := t_rsqrt (t_add_scalar variance variance_epsilon) in
  let inv := match scale with
             | Some scale => t_mul inv scale
             | None => inv
             end in
  let a := t_cast inv x in
  let b := t_cast (match offset with
                   | Some offset => t_sub offset (t_mul mean inv)
                   | None => t_mul (t_neg mean) inv
                   end) x in
  let df := [("channels_first", "NCHW"); ("channels_last", "NHWC")] in
  fmt ← dict_getitem df data_format;
  scaled ← _bias_scale x a fmt;
  fmt ← dict_getitem df data_format;
  _bias_add scaled b fmt.

End Helpers.

(** ** Tensors as graph nodes *)

Module GraphTensor.

(** The result of a broadcasting operator has the rank of its larger
    operand. *)
Definition binop (name : string) (x y : value) : value :=
  tf.op name [x; y]
    (if (length (tf.shape_of x) <? length (tf.shape_of y))%nat
     then tf.shape_of y else tf.shape_of x).

#[global] Instance ops : TensorOps value value := {|
  t_mul := binop "mul";
  t_add := binop "add";
  t_sub := binop "sub";
  t_neg x := tf.op "neg" [x] (tf.shape_of x);
  t_add_scalar := binop "add";
  t_rsqrt x := tf.op "rsqrt" [x] (tf.shape_of x);
  t_cast x y := tf.op "cast" [x] (tf.shape_of x);
  t_dim0 b := d ← getitem (tf.shape_of b) 0; tf.int_of_dim d;
  t_reshape b new_shape := tf.op "reshape" [b] (map Some new_shape)
|}.

End GraphTensor.

(** ** Tensors as arrays of real numbers *)

Module Array.

Local Open Scope nat_scope.

(** An array is its shape and its entry at every index. *)
Record array := Arr { shape : list nat; at_ : list nat -> R }.

(** Broadcasting: shapes are aligned at their last dimension; a
    dimension of size one is stretched. *)
Fixpoint broadcast_rev (s1 s2 : list nat) : list nat :=
  match s1, s2 with
  | [], _ => s2
  | _, [] => s1
  | d1 :: r1, d2 :: r2 => Nat.max d1 d2 :: broadcast_rev r1 r2
  end.

Definition broadcast (s1 s2 : list nat) : list nat :=
  rev (broadcast_rev (rev s1) (rev s2)).

Fixpoint project_rev (rshape ridx : list nat) : list nat :=
  match rshape, ridx with
  | d :: rs, i :: ri => (if d =? 1 then 0 else i) :: project_rev rs ri
  | _, _ => []
  end.

(** The index of an operand of shape [sh] that feeds the entry [idx] of
    a broadcast result. *)
Definition project (sh idx : list nat) : list nat :=
  rev (project_rev (rev sh) (rev idx)).

Definition map2 (f : R -> R -> R) (x y : array) : array :=
  {| shape := broadcast (shape x) (shape y);
     at_ := fun idx => f (at_ x (project (shape x) idx))
                         (at_ y (project (shape y) idx)) |}.

Definition map1 (f : R -> R) (x : array) : array :=
  {| shape := shape x; at_ := fun idx => f (at_ x idx) |}.

(** Row-major position of an index, and back. *)
Definition linear (sh idx : list nat) : nat :=
  fold_left (fun acc di => acc * fst di + snd di) (combine sh idx) 0.

Fixpoint unlinear_rev (rshape : list nat) (k : nat) : list nat :=
  match rshape with
  | [] => []
  | d :: rs => k mod d :: unlinear_rev rs (k / d)
  end.

Definition unlinear (sh : list nat) (k : nat) : list nat :=
  rev (unlinear_rev (rev sh) k).

(** [tf.reshape]: the entries keep their row-major order. *)
Definition reshape (x : array) (new_shape : list Z) : array :=
  let sh := map Z.to_nat new_shape in
  {| shape := sh;
     at_ := fun idx => at_ x (unlinear (shape x) (linear sh idx)) |}.

(** Reciprocal of the square root. *)
Definition rsqrt (y : R) : R := (1 / sqrt y)%R.

#[global] Instance ops : TensorOps array R := {|
  t_mul := map2 Rmult;
  t_add := map2 Rplus;
  t_sub := map2 Rminus;
  t_neg := map1 Ropp;
  t_add_scalar x s := map1 (fun v => (v + s)%R) x;
  t_rsqrt := map1 rsqrt;
  t_cast x _ := x;
  t_dim0 b := d ← getitem (shape b) 0%Z; mret (Z.of_nat d);
  t_reshape := reshape
|}.

(** The index is within the shape. *)
Definition in_range (sh idx : list nat) : Prop :=
  Forall2 (fun i d => i < d) idx sh.

End Array.

(** ** Names of the module

    A name that a function reads without binding it is looked up among
    the globals of the module and then among the builtins. *)

Module Names.

(** The names bound at the top level of normalization.py: its imports,
    [__all__], its functions and its classes. *)
Definition module_globals : list string :=
  [ "__name__"; "__doc__"; "__package__"; "__loader__"; "__spec__";
    "__file__"; "__cached__"; "__builtins__";
    "tf"; "moving_averages"; "ops"; "math_ops";
    "Layer"; "LayersConfig"; "TF_GRAPHKEYS_VARIABLES";
    "get_collection_trainable"; "logging"; "deprecated_alias"; "__all__";
    "LocalResponseNorm"; "_to_channel_first_bias"; "_bias_scale";
    "_bias_add"; "batch_normalization"; "BatchNorm"; "InstanceNorm";
    "LayerNorm"; "GroupNorm"; "SwitchNorm" ].

(** The names of the [builtins] module. *)
Definition builtins : list string :=
  [ "abs"; "all"; "any"; "ascii"; "bin"; "bool"; "breakpoint";
    "bytearray"; "bytes"; "callable"; "chr"; "classmethod"; "compile";
    "complex"; "copyright"; "credits"; "delattr"; "dict"; "dir"; "divmod";
    "enumerate"; "eval"; "exec"; "exit"; "filter"; "float"; "format";
    "frozenset"; "getattr"; "globals"; "hasattr"; "hash"; "help"; "hex";
    "id"; "input"; "int"; "isinstance"; "issubclass"; "iter"; "len";
    "license"; "list"; "locals"; "map"; "max"; "memoryview"; "min";
    "next"; "object"; "oct"; "open"; "ord"; "pow"; "print"; "property";
    "quit"; "range"; "repr"; "reversed"; "round"; "set"; "setattr";
    "slice"; "sorted"; "staticmethod"; "str"; "sum"; "super"; "tuple";
    "type"; "vars"; "zip"; "__import__"; "__build_class__"; "__debug__";
    "None"; "True"; "False"; "Ellipsis"; "NotImplemented";
    "BaseException"; "Exception"; "ArithmeticError"; "AssertionError";
    "AttributeError"; "BlockingIOError"; "BrokenPipeError"; "BufferError";
    "BytesWarning"; "ChildProcessError"; "ConnectionAbortedError";
    "ConnectionError"; "ConnectionRefusedError"; "ConnectionResetError";
    "DeprecationWarning"; "EOFError"; "EnvironmentError";
    "FileExistsError"; "FileNotFoundError"; "FloatingPointError";
    "FutureWarning"; "GeneratorExit"; "IOError"; "ImportError";
    "ImportWarning"; "IndentationError"; "IndexError"; "InterruptedError";
    "IsADirectoryError"; "KeyError"; "KeyboardInterrupt"; "LookupError";
    "MemoryError"; "ModuleNotFoundError"; "NameError";
    "NotADirectoryError"; "NotImplementedError"; "OSError";
    "OverflowError"; "PendingDeprecationWarning"; "PermissionError";
    "ProcessLookupError"; "RecursionError"; "ReferenceError";
    "ResourceWarning"; "RuntimeError"; "RuntimeWarning";
    "StopAsyncIteration"; "StopIteration"; "SyntaxError"; "SyntaxWarning";
    "SystemError"; "SystemExit"; "TabError"; "TimeoutError"; "TypeError";
    "UnboundLocalError"; "UnicodeDecodeError"; "UnicodeEncodeError";
    "UnicodeError"; "UnicodeTranslateError"; "UnicodeWarning";
    "UserWarning"; "ValueError"; "Warning"; "ZeroDivisionError" ].

(** Reading the name [name] in a function whose local names are
    [locals]. *)
Definition load (locals : list (string * value)) (name : string) : res value :=
  match assoc name locals with
  | Some v => Ok v
  | None =>
      if str_in name module_globals || str_in name builtins
      then Ok (VCallable name [])
      else Raise (Exn NameError ("name '" +:+ name +:+ "' is not defined"))
  end.

End Names.

(** Coercions of attribute values to the types the code computes with. *)
Module Coerce.

(** The integer an operand of [//], [%] or [>] must be. *)
Definition int (op : string) (v : value) : res Z :=
  match v with
  | VInt z => Ok z
  | VBool b => Ok (if b then 1 else 0)
  | _ => Raise (Exn TypeError
                  ("unsupported operand type(s) for " +:+ op +:+ ": '"
                     +:+ type_name v +:+ "'"))
  end.

(** [v == s] for a string literal [s]. *)
Definition str_eq (v : value) (s : string) : bool :=
  match v with VStr s' => String.eqb s' s | _ => false end.

(** A possibly absent tensor. *)
Definition optional (v : value) : option value :=
  if is_none v then None else Some v.

End Coerce.

(** Shape of the results of [tf.nn.moments]. *)
Definition moments_shape (shape : list dim) (axes : list Z) (keep_dims : bool)
    : list dim :=
  flat_map (fun id : Z * dim =>
              if existsb (Z.eqb (fst id)) axes
              then (if keep_dims then [Some 1] else [])
              else [snd id])
           (combine (range (length shape)) shape).

Module LocalResponseNorm.

Definition cls : string := "LocalResponseNorm".

Record kwargs := Kwargs {
  depth_radius : value;
  bias : value;
  alpha : value;
  beta : value;
  name : value
}.

Definition defaults : kwargs := Kwargs VNone VNone VNone VNone VNone.

Definition __init__ (a : kwargs) : M unit :=
  Layer.__init__ [("name", name a)];;
  Obj.setattr "depth_radius" (depth_radius a);;
  Obj.setattr "bias" (bias a);;
  Obj.setattr "alpha" (alpha a);;
  Obj.setattr "beta" (beta a);;
  Obj.getattr cls "name";;
  logging_info "LocalResponseNorm %s: depth_radius: %s, bias: %s, alpha: %s, beta: %s".

Definition build (inputs : value) : M unit := ret tt.

Definition forward (inputs : value) : M value :=
  depth_radius ← Obj.getattr cls "depth_radius";
  bias ← Obj.getattr cls "bias";
  alpha ← Obj.getattr cls "alpha";
  beta ← Obj.getattr cls "beta";
  let outputs := tf.op "tf.nn.lrn" [inputs; depth_radius; bias; alpha; beta]
                   (tf.shape_of inputs) in
  ret outputs.

End LocalResponseNorm.

Module BatchNorm.

Definition cls : string := "BatchNorm".

Record kwargs := Kwargs {
  prev_layer : value;
  decay : Q;
  epsilon : value;
  act : value;
  is_train : bool;
  beta_init : value;
  gamma_init : value;
  moving_mean_init : value;
  data_format : string;
  name : value
}.

Definition defaults (prev_layer : value) : kwargs := {|
  prev_layer := prev_layer;
  decay := 9 # 10;
  epsilon := VFloat (1 # 100000);
  act := VNone;
  is_train := false;
  beta_init := tf.initializer_class "tf.zeros_initializer";
  gamma_init := tf.initializer "tf.random_normal_initializer" [VFloat 1; VFloat (2 # 1000)];
  moving_mean_init := tf.initializer "tf.zeros_initializer" [];
  data_format := "channels_last";
  name := VStr "batchnorm"
|}.

Definition decay_error : exn := Exn Exception "decay should be between 0 to 1".

Definition data_format_error : exn :=
  Exn ValueError "data_format should be either channels_last or channels_first".

(** [beta_init == tf.zeros_initializer] *)
Definition is_zeros_initializer_class (v : value) : bool :=
  match v with
  | VCallable n [] => String.eqb n "tf.zeros_initializer"
  | _ => false
  end.

Definition __init__ (a : kwargs) : M unit :=
  Layer.__init__ [("prev_layer", prev_layer a); ("act", act a); ("name", name a)];;
  Obj.getattr cls "name";;
  Obj.getattr cls "act";;
  logging_info "BatchNorm %s: decay: %f epsilon: %f act: %s is_train: %s";;
  if lt (decay a) 0 || lt 1 (decay a) then raise decay_error
  else
    inputs ← Obj.getattr cls "inputs";
    x_shape ← lift (tf.get_shape inputs);
    axis ← (if String.eqb (data_format a) "channels_last"
            then ret (Z.of_nat (length x_shape) - 1)
            else if String.eqb (data_format a) "channels_first"
            then ret 1
            else raise data_format_error);
    params_shape ← lift (getitem x_shape axis);
    scope ← lift (tf.scope_name (name a));
    variables ← tf.variable_scope scope (
      let axes := filter (fun i => negb (i =? axis)) (range (length x_shape)) in
      (* 1. beta, gamma *)
      let variables := [] in
      '(beta, variables) ←
        (if truthy (beta_init a) then
           let beta_init := if is_zeros_initializer_class (beta_init a)
                            then tf.instantiate (beta_init a)
                            else beta_init a in
           beta ← tf.get_variable "beta" (tf.of_dim params_shape) beta_init (is_train a);
           ret (beta, variables ++ [beta])
         else ret (VNone, variables));
      '(gamma, variables) ←
        (if truthy (gamma_init a) then
           gamma ← tf.get_variable "gamma" (tf.of_dim params_shape) (gamma_init a)
                     (is_train a);
           ret (gamma, variables ++ [gamma])
         else ret (VNone, variables));
      (* 2. *)
      moving_mean ← tf.get_variable "moving_mean" (tf.of_dim params_shape)
                      (moving_mean_init a) false;
      moving_variance ← tf.get_variable "moving_variance" (tf.of_dim params_shape)
                          (tf.initializer "tf.constant_initializer" [VFloat 1]) false;
      (* 3. *)
      inputs ← Obj.getattr cls "inputs";
      let mshape := moments_shape (tf.shape_of inputs) axes false in
      let mean := tf.op "tf.nn.moments[0]" [inputs; VList (map VInt axes)] mshape in
      let variance := tf.op "tf.nn.moments[1]" [inputs; VList (map VInt axes)] mshape in
      let update_moving_mean :=
        tf.op "moving_averages.assign_moving_average"
          [moving_mean; mean; VFloat (decay a)] mshape in
      let update_moving_variance :=
        tf.op "moving_averages.assign_moving_average"
          [moving_variance; variance; VFloat (decay a)] mshape in
      let mean_var_with_update :=
        (tf.op "tf.identity" [mean; update_moving_mean; update_moving_variance] mshape,
         tf.op "tf.identity" [variance; update_moving_mean; update_moving_variance] mshape) in
      let '(mean, var) := if is_train a then mean_var_with_update
                          else (moving_mean, moving_variance) in
      inputs ← Obj.getattr cls "inputs";
      normalized ← lift (batch_normalization inputs mean var
                           (Coerce.optional beta) (Coerce.optional gamma)
                           (epsilon a) (data_format a));
      outputs ← Layer._apply_activation cls normalized;
      Obj.setattr "outputs" outputs;;
      ret (variables ++ [moving_mean; moving_variance]));
    outputs ← Obj.getattr cls "outputs";
    Layer._add_layers outputs;;
    Layer._add_params (VList variables).

End BatchNorm.

Module InstanceNorm.

Definition cls : string := "InstanceNorm".

Record kwargs := Kwargs {
  act : value;
  epsilon : value;
  name : value
}.

Definition defaults : kwargs := Kwargs VNone (VFloat (1 # 100000)) VNone.

Definition __init__ (a : kwargs) : M unit :=
  Layer.__init__ [("name", name a)];;
  Obj.setattr "act" (act a);;
  Obj.setattr "epsilon" (epsilon a);;
  Obj.getattr cls "name";;
  Obj.getattr cls "act";;
  logging_info "InstanceNorm %s: epsilon: %f act: %s".

Definition build (inputs : value) : M unit :=
  name ← Obj.getattr cls "name";
  scale_name ← lift (Obj.str_add name "\scale");
  in_shape ← lift (tf.get_shape inputs);
  d ← lift (getitem in_shape (-1));
  scale ← tf.get_variable scale_name (VList [tf.of_dim d])
            (tf.initializer "tf.truncated_normal_initializer" [VFloat 1; VFloat (2 # 100)])
            true;
  Obj.setattr "scale" scale;;
  name ← Obj.getattr cls "name";
  offset_name ← lift (Obj.str_add name "\offset");
  in_shape ← lift (tf.get_shape inputs);
  d ← lift (getitem in_shape (-1));
  offset ← tf.get_variable offset_name (VList [tf.of_dim d])
             (tf.initializer "tf.constant_initializer" [VFloat 0]) true;
  Obj.setattr "offset" offset;;
  scale ← Obj.getattr cls "scale";
  offset ← Obj.getattr cls "offset";
  Layer.add_weights [scale; offset].

Definition forward (inputs : value) : M value :=
  let mshape := moments_shape (tf.shape_of inputs) [1; 2] true in
  let mean := tf.op "tf.nn.moments[0]" [inputs; VList [VInt 1; VInt 2]] mshape in
  let var := tf.op "tf.nn.moments[1]" [inputs; VList [VInt 1; VInt 2]] mshape in
  scale ← Obj.getattr cls "scale";
  epsilon ← Obj.getattr cls "epsilon";
  let normalized :=
    tf.op "tf.div" [t_sub inputs mean; tf.op "tf.sqrt" [t_add_scalar var epsilon] mshape]
      (tf.shape_of inputs) in
  offset ← Obj.getattr cls "offset";
  let outputs := t_add (t_mul scale normalized) offset in
  act ← Obj.getattr cls "act";
  outputs ← lift (Obj.call act outputs);
  ret outputs.

End InstanceNorm.

Module LayerNorm.

Definition cls : string := "LayerNorm".

Record kwargs := Kwargs {
  prev_layer : value;
  center : bool;
  scale : bool;
  act : value;
  reuse : value;
  variables_collections : value;
  outputs_collections : value;
  trainable : bool;
  begin_norm_axis : value;
  begin_params_axis : value;
  name : value
}.

Definition defaults (prev_layer : value) : kwargs := {|
  prev_layer := prev_layer;
  center := true;
  scale := true;
  act := VNone;
  reuse := VNone;
  variables_collections := VNone;
  outputs_collections := VNone;
  trainable := true;
  begin_norm_axis := VInt 1;
  begin_params_axis := VInt (-1);
  name := VStr "layernorm"
|}.

(** [tf.contrib.layers.layer_norm]: under its scope the framework adds
    the offset when [center] and the scale when [scale], and returns the
    normalized, activated tensor. *)
Definition layer_norm (inputs : value) (center scale : bool) (activation_fn : value)
    (trainable : bool) (scope : string) : M value :=
  tf.variable_scope scope (
    let params_shape := match rev (tf.shape_of inputs) with
                        | d :: _ => VList [tf.of_dim d]
                        | [] => VList []
                        end in
    beta ← (if center
            then tf.get_variable "beta" params_shape
                   (tf.initializer "tf.zeros_initializer" []) trainable
            else ret VNone);
    gamma ← (if scale
             then tf.get_variable "gamma" params_shape
                    (tf.initializer "tf.ones_initializer" []) trainable
             else ret VNone);
    ret (tf.op "tf.contrib.layers.layer_norm" [inputs; beta; gamma; activation_fn]
           (tf.shape_of inputs))).

(** [tf.get_collection(TF_GRAPHKEYS_VARIABLES, scope=...)]: the variables
    of the store whose name starts with the scope. *)
Definition get_collection (scope : string) : M (list value) :=
  s ← get;
  ret (map (fun v => VTensor "Variable" [VStr (var_name v)] (tf.to_shape (var_shape v)))
           (filter (fun v => String.prefix scope (var_name v)) (variables s))).

Definition __init__ (a : kwargs) : M unit :=
  Layer.__init__ [("prev_layer", prev_layer a); ("act", act a); ("name", name a)];;
  Obj.getattr cls "name";;
  Obj.getattr cls "act";;
  logging_info "LayerNorm %s: act: %s";;
  scope ← lift (tf.scope_name (name a));
  variables ← tf.variable_scope scope (
    s ← get;
    let vs_name := tf.scoped_name (tl (scopes s)) scope in
    inputs ← Obj.getattr cls "inputs";
    act ← Obj.getattr cls "act";
    outputs ← layer_norm inputs (center a) (scale a) act (trainable a) "var";
    Obj.setattr "outputs" outputs;;
    get_collection vs_name);
  outputs ← Obj.getattr cls "outputs";
  Layer._add_layers outputs;;
  Layer._add_params (VList variables).

End LayerNorm.

Module GroupNorm.

Definition cls : string := "GroupNorm".

Record kwargs := Kwargs {
  groups : Z;
  epsilon : value;
  act : value;
  data_format : string;
  name : value
}.

Definition defaults : kwargs :=
  Kwargs 32 (VFloat (1 # 1000000)) VNone "channels_last" VNone.

Definition __init__ (a : kwargs) : M unit :=
  Layer.__init__ [("name", name a)];;
  Obj.setattr "groups" (VInt (groups a));;
  Obj.setattr "epsilon" (epsilon a);;
  Obj.setattr "act" (act a);;
  Obj.setattr "data_format" (VStr (data_format a));;
  Obj.getattr cls "name";;
  Obj.getattr cls "act";;
  logging_info "GroupNorm %s: act: %s".

Definition rank_error : exn := Exn Exception "GroupNorm only supports 2D images.".

Definition data_format_error : exn :=
  Exn ValueError "data_format must be 'channels_last' or 'channels_first'.".

Definition groups_error (groups channels : Z) : exn :=
  Exn ValueError ("Invalid groups " +:+ format_d groups +:+ " for "
                    +:+ format_d channels +:+ " channels.").

Definition commensurate_error (groups channels : Z) : exn :=
  Exn ValueError (format_d channels +:+ " channels is not commensurate with "
                    +:+ format_d groups +:+ " groups.").

(** [channels // self.groups], [channels] being an entry of
    [as_list()]: an integer, or [None] for an unknown size. *)
Definition channels_per_group (channels : dim) (groups : value) : res Z :=
  match channels with
  | None => Raise (Exn TypeError "unsupported operand type(s) for //: 'NoneType' and 'int'")
  | Some c => g ← Coerce.int "//" groups; floordiv c g
  end.

Definition build (inputs : value) : M unit :=
  shape ← lift (tf.get_shape inputs);
  if negb (length shape =? 4)%nat then raise rank_error
  else
    data_format ← Obj.getattr cls "data_format";
    channels ←
      (if Coerce.str_eq data_format "channels_last" then
         channels ← lift (getitem shape (-1));
         self_inputs ← Obj.getattr cls "inputs";
         groups ← Obj.getattr cls "groups";
         groups' ← Obj.getattr cls "groups";
         per_group ← lift (channels_per_group channels groups');
         Obj.setattr "int_shape"
           (tf.op "tf.concat"
              [tf.op "tf.shape[0:3]" [self_inputs] [Some 3];
               tf.op "tf.convert_to_tensor" [VList [groups; VInt per_group]] [Some 2]]
              [Some 5]);;
         ret channels
       else
         data_format ← Obj.getattr cls "data_format";
         if Coerce.str_eq data_format "channels_first" then
           channels ← lift (getitem shape 1);
           self_inputs ← Obj.getattr cls "inputs";
           groups ← Obj.getattr cls "groups";
           groups' ← Obj.getattr cls "groups";
           per_group ← lift (channels_per_group channels groups');
           self_inputs' ← Obj.getattr cls "inputs";
           Obj.setattr "int_shape"
             (tf.op "tf.concat"
                [tf.op "tf.shape[0:1]" [self_inputs] [Some 1];
                 tf.op "tf.convert_to_tensor" [VList [groups; VInt per_group]] [Some 2];
                 tf.op "tf.shape[2:4]" [self_inputs'] [Some 2]]
                [Some 5]);;
           ret channels
         else raise data_format_error);
    (* channels is an integer here: [channels // self.groups] went through *)
    c ← lift (tf.int_of_dim channels);
    groups ← Obj.getattr cls "groups";
    g ← lift (Coerce.int ">" groups);
    if c <? g then raise (groups_error g c)
    else
      groups ← Obj.getattr cls "groups";
      g ← lift (Coerce.int "%" groups);
      r ← lift (mod_ c g);
      if negb (r =? 0) then raise (commensurate_error g c)
      else
        data_format ← Obj.getattr cls "data_format";
        (if Coerce.str_eq data_format "channels_last" then
           gamma ← tf.get_variable "gamma" (VInt c)
                     (tf.initializer "tf.ones_initializer" []) true;
           Obj.setattr "gamma" gamma;;
           beta ← tf.get_variable "beta" (VInt c)
                    (tf.initializer "tf.zeros_initializer" []) true;
           Obj.setattr "beta" beta
         else
           gamma ← tf.get_variable "gamma" (VList [VInt 1; VInt c; VInt 1; VInt 1])
                     (tf.initializer "tf.ones_initializer" []) true;
           Obj.setattr "gamma" gamma;;
           beta ← tf.get_variable "beta" (VList [VInt 1; VInt c; VInt 1; VInt 1])
                    (tf.initializer "tf.zeros_initializer" []) true;
           Obj.setattr "beta" beta);;
        gamma ← Obj.getattr cls "gamma";
        bata ← Obj.getattr cls "bata";
        Layer.add_weights [gamma; bata].

Definition forward (inputs : value) : M value :=
  int_shape ← Obj.getattr cls "int_shape";
  let x := tf.op "tf.reshape" [inputs; int_shape] [None; None; None; None; None] in
  data_format ← Obj.getattr cls "data_format";
  let axes := if Coerce.str_eq data_format "channels_last"
              then [1; 2; 4] else [2; 3; 4] in
  let mshape := moments_shape (tf.shape_of x) axes true in
  let mean := tf.op "tf.nn.moments[0]" [x; VList (map VInt axes)] mshape in
  let var := tf.op "tf.nn.moments[1]" [x; VList (map VInt axes)] mshape in
  epsilon ← Obj.getattr cls "epsilon";
  let x := tf.op "div" [t_sub x mean; tf.op "tf.sqrt" [t_add_scalar var epsilon] mshape]
             (tf.shape_of x) in
  gamma ← Obj.getattr cls "gamma";
  beta ← Obj.getattr cls "beta";
  let outputs :=
    t_add (t_mul (tf.op "tf.reshape" [x; tf.op "tf.shape" [inputs] [Some 4]]
                    (tf.shape_of inputs)) gamma) beta in
  act ← Obj.getattr cls "act";
  if truthy act then
    act ← Obj.getattr cls "act";
    outputs ← lift (Obj.call act outputs);
    ret outputs
  else ret outputs.

End GroupNorm.

Module SwitchNorm.

Definition cls : string := "SwitchNorm".

Record kwargs := Kwargs {
  act : value;
  epsilon : value;
  beta_init : value;
  gamma_init : value;
  moving_mean_init : value;
  name : value
}.

Definition defaults : kwargs := {|
  act := VNone;
  epsilon := VFloat (1 # 100000);
  beta_init := tf.initializer "tf.constant_initializer" [VFloat 0];
  gamma_init := tf.initializer "tf.constant_initializer" [VFloat 1];
  moving_mean_init := tf.initializer "tf.zeros_initializer" [];
  name := VNone
|}.

Definition __init__ (a : kwargs) : M unit :=
  Layer.__init__ [("name", name a)];;
  Obj.setattr "act" (act a);;
  Obj.setattr "epsilon" (epsilon a);;
  Obj.setattr "beta_init" (beta_init a);;
  Obj.setattr "gamma_init" (gamma_init a);;
  Obj.setattr "moving_mean_init" (moving_mean_init a);;
  Obj.getattr cls "name";;
  Obj.getattr cls "act";;
  logging_info "SwitchNorm %s: epsilon: %f act: %s".

(** The local names of [build]: its parameters and [ch]. *)
Definition build_locals (inputs ch : value) : list (string * value) :=
  [("self", VObject cls []); ("inputs", inputs); ("ch", ch)].

Definition build (inputs : value) : M unit :=
  shape ← lift (tf.get_shape inputs);
  d ← lift (getitem shape (-1));
  let locals := build_locals inputs (tf.of_dim d) in
  lift (Names.load locals "tf");;
  ch ← lift (Names.load locals "ch");
  gamma_init ← lift (Names.load locals "gamma_init");
  gamma ← tf.get_variable "gamma" (VList [ch]) gamma_init true;
  Obj.setattr "gamma" gamma;;
  lift (Names.load locals "tf");;
  ch ← lift (Names.load locals "ch");
  beta_init ← lift (Names.load locals "beta_init");
  beta ← tf.get_variable "beta" (VList [ch]) beta_init true;
  Obj.setattr "beta" beta;;
  mean_weight_var ← tf.get_variable "mean_weight" (VList [VInt 3])
                      (tf.initializer "tf.constant_initializer" [VFloat 1]) true;
  Obj.setattr "mean_weight_var" mean_weight_var;;
  var_weight_var ← tf.get_variable "var_weight" (VList [VInt 3])
                     (tf.initializer "tf.constant_initializer" [VFloat 1]) true;
  Obj.setattr "var_weight_var" var_weight_var;;
  gamma ← Obj.getattr cls "gamma";
  beta ← Obj.getattr cls "beta";
  mean_weight_var ← Obj.getattr cls "mean_weight_var";
  var_weight_var ← Obj.getattr cls "var_weight_var";
  Layer.add_weights [gamma; beta; mean_weight_var; var_weight_var].

Definition moments (inputs : value) (axes : list Z) : value * value :=
  let mshape := moments_shape (tf.shape_of inputs) axes true in
  (tf.op "tf.nn.moments[0]" [inputs; VList (map VInt axes)] mshape,
   tf.op "tf.nn.moments[1]" [inputs; VList (map VInt axes)] mshape).

Definition weight (w : value) (i : Z) : value :=
  tf.op "getitem" [w; VInt i] [].

Definition forward (inputs : value) : M value :=
  let '(batch_mean, batch_var) := moments inputs [0; 1; 2] in
  let '(ins_mean, ins_var) := moments inputs [1; 2] in
  let '(layer_mean, layer_var) := moments inputs [1; 2; 3] in
  mean_weight_var ← Obj.getattr cls "mean_weight_var";
  let mean_weight := tf.op "tf.nn.softmax" [mean_weight_var] [Some 3] in
  var_weight_var ← Obj.getattr cls "var_weight_var";
  let var_weight := tf.op "tf.nn.softmax" [var_weight_var] [Some 3] in
  let mean := t_add (t_add (t_mul (weight mean_weight 0) batch_mean)
                           (t_mul (weight mean_weight 1) ins_mean))
                    (t_mul (weight mean_weight 2) layer_mean) in
  let var := t_add (t_add (t_mul (weight var_weight 0) batch_var)
                          (t_mul (weight var_weight 1) ins_var))
                   (t_mul (weight var_weight 2) layer_var) in
  epsilon ← Obj.getattr cls "epsilon";
  let inputs := tf.op "div" [t_sub inputs mean;
                             tf.op "tf.sqrt" [t_add_scalar var epsilon] (tf.shape_of var)]
                  (tf.shape_of inputs) in
  gamma ← Obj.getattr cls "gamma";
  beta ← Obj.getattr cls "beta";
  let outputs := t_add (t_mul inputs gamma) beta in
  act ← Obj.getattr cls "act";
  if truthy act then
    act ← Obj.getattr cls "act";
    outputs ← lift (Obj.call act outputs);
    ret outputs
  else ret outputs.

End SwitchNorm.

(** * Properties of computations *)

(** A computation is quiet when it creates no variable and registers
    neither an output nor a parameter, whatever it returns or raises. *)
Definition quiet {A} (m : M A) : Prop :=
  forall s,
    variables (final m s) = variables s /\
    graph (final m s) = graph s /\
    params (final m s) = params s.

(** A computation creates at least [n] variables whenever it returns. *)
Definition allocates {A} (n : nat) (m : M A) : Prop :=
  forall s a s', m s = (Ok a, s') ->
    (length (variables s) + n <= length (variables s'))%nat.

(** A computation never takes a variable back. *)
Definition keeps {A} (m : M A) : Prop :=
  forall s, (length (variables s) <= length (variables (final m s)))%nat.

(** Every exception a computation can raise satisfies [P]. *)
Definition raises_only {A} (P : exn -> Prop) (m : M A) : Prop :=
  forall s e, outcome m s = Raise e -> P e.

Definition res_raises_only {A} (P : exn -> Prop) (r : res A) : Prop :=
  forall e, r = Raise e -> P e.

(** The state a layer is in once the base constructor has taken the
    previous layer [prev], whose output is [o]. *)
Definition after_base (prev o act name : value) (s : state) : state :=
  set_self (fun d => <["name" := name]> (<["act" := act]>
                       (<["inputs" := o]> (<["prev_layer" := prev]> d)))) s.

(** The decay is outside the closed interval from 0 to 1. *)
Definition out_of_range (d : Q) : Prop := (d < 0)%Q \/ (1 < d)%Q.

(** ** The reference normalization

    The definition the helper [batch_normalization] is a refactoring of:
    an entry [x] of the input, with the mean [m], the variance [v], the
    offset [beta] and the scale [gamma] of its channel, is mapped to
    [gamma * (x - m) / sqrt (v + e) + beta]; an absent offset or scale
    is left out. *)
Definition reference (x m v : R) (beta gamma : option R) (e : R) : R :=
  let y := ((x - m) / sqrt (v + e))%R in
  let y := match gamma with Some g => (g * y)%R | None => y end in
  match beta with Some b => (y + b)%R | None => y end.

(** An optional per-channel parameter has the shape [sh]. *)
Definition has_shape (sh : list nat) (o : option Array.array) : Prop :=
  match o with Some p => Array.shape p = sh | None => True end.

(** The entry of an optional per-channel parameter. *)
Definition entry (o : option Array.array) (idx : list nat) : option R :=
  option_map (fun p => Array.at_ p idx) o.

(** What calling [None] raises. *)
Definition not_callable : exn := Exn TypeError "'NoneType' object is not callable".

(** ** GroupNorm.build *)

(** The axis of the channels in a 4-D shape, as an index. *)
Definition channel_index (data_format : string) : Z :=
  if String.eqb data_format "channels_last" then -1 else 1.

(** What reading the attribute [bata] of a GroupNorm raises. *)
Definition missing_bata : exn :=
  Exn AttributeError "'GroupNorm' object has no attribute 'bata'".

(** The two documented data formats. *)
Definition valid_data_format (df : string) : Prop :=
  df = "channels_last" \/ df = "channels_first".

(** The shape tf.get_variable is given for gamma and beta. *)
Definition group_param_shape (df : string) (c : Z) : value :=
  if String.eqb df "channels_last" then VInt c
  else VList [VInt 1; VInt c; VInt 1; VInt 1].

(** A computation cannot return while [self] lacks the attribute [name]. *)
Definition stuck_without (name : string) {A} (m : M A) : Prop :=
  forall s, self s !! name = None -> raises m s.

(** A computation that returns does not add the attribute [name]. *)
Definition keeps_absent (name : string) {A} (m : M A) : Prop :=
  forall s a s', self s !! name = None -> m s = (Ok a, s') -> self s' !! name = None.

(** ** Sample inputs *)

(** A previous layer with the given output. *)
Definition layer_of (outputs : value) : value :=
  VObject "Layer" [("outputs", outputs)].

(** A batch of 8 images of 32 by 32 pixels with 6 channels. *)
Definition image_batch : value :=
  VTensor "Placeholder" [VStr "x"] [Some 8; Some 32; Some 32; Some 6].

(** A BatchNorm configuration whose decay is above 1. *)
Definition bn_decay_above : BatchNorm.kwargs :=
  BatchNorm.Kwargs (layer_of image_batch) (11 # 10) (VFloat (1 # 100000))
    VNone false VNone VNone VNone "channels_last" (VStr "bn").

(** An atrous convolution configuration with an invalid padding. *)
Definition conv_bogus : AtrousConv2dLayer.kwargs :=
  AtrousConv2dLayer.Kwargs VNone (VInt 32) (VList [VInt 3; VInt 3]) (VInt 2)
    "BOGUS" VNone VNone VNone VNone VNone (VStr "atrous_2d").

(** A GroupNorm with the given number of groups, constructed and given the
    sample batch as its input. *)
Definition gn_applied (groups : Z) : state :=
  final (GroupNorm.__init__
           (GroupNorm.Kwargs groups (VFloat (1 # 1000000)) VNone "channels_last" (VStr "gn"));;
         Obj.setattr "inputs" image_batch) empty_state.

Definition gn3_applied : state := gn_applied 3.
Definition gn4_applied : state := gn_applied 4.

(** A BatchNorm configuration with an undocumented data format. *)
Definition bn_bogus_format : BatchNorm.kwargs :=
  BatchNorm.Kwargs (layer_of image_batch) (9 # 10) (VFloat (1 # 100000))
    VNone false VNone VNone VNone "NHWC" (VStr "bn").

(** A GroupNorm constructed with an undocumented data format and given
    the sample batch as its input. *)
Definition gn_bogus_format : state :=
  final (GroupNorm.__init__
           (GroupNorm.Kwargs 3 (VFloat (1 # 1000000)) VNone "NHWC" (VStr "gn"));;
         Obj.setattr "inputs" image_batch) empty_state.

(** Sample arrays: one entry per channel, two channels. *)
Definition sample_x : Array.array := Array.Arr [1; 2; 1; 1]%nat (fun _ => 3%R).
Definition sample_mean : Array.array := Array.Arr [2]%nat (fun _ => 1%R).
Definition sample_variance : Array.array := Array.Arr [2]%nat (fun _ => 4%R).
Definition sample_beta : Array.array := Array.Arr [2]%nat (fun _ => 5%R).
Definition sample_gamma : Array.array := Array.Arr [2]%nat (fun _ => 2%R).

(** ** Further properties of computations *)

(** A computation leaves the whole state as it found it. *)
Definition stateless {A} (m : M A) : Prop := forall s, final m s = s.

(** A computation leaves the stack of variable scopes as it found it,
    whether it returns or raises. *)
Definition scope_neutral {A} (m : M A) : Prop :=
  forall s, scopes (final m s) = scopes s.

(** What [//] and [%] raise on a zero divisor, and what an index out of
    range raises. *)
Definition zero_division : exn :=
  Exn ZeroDivisionError "integer division or modulo by zero".

Definition index_error : exn := Exn IndexError "list index out of range".

(** A GroupNorm with three groups given a batch of three dimensions. *)
Definition sequence_batch : value :=
  VTensor "Placeholder" [VStr "x"] [Some 8; Some 32; Some 6].

(** An InstanceNorm named "in" with relu as its activation: constructed,
    and built against the sample batch. *)
Definition in_relu_constructed : state :=
  final (InstanceNorm.__init__
           (InstanceNorm.Kwargs (VCallable "tf.nn.relu" []) (VFloat (1 # 100000)) (VStr "in")))
    empty_state.

Definition in_relu_built : state :=
  final (InstanceNorm.build image_batch) in_relu_constructed.

(** An atrous convolution configured with a padding in lower case. *)
Definition conv_lower_case : AtrousConv2dLayer.kwargs :=
  AtrousConv2dLayer.Kwargs VNone (VInt 32) (VList [VInt 3; VInt 3]) (VInt 2)
    "same" VNone VNone VNone VNone VNone (VStr "atrous_2d").

(** A BatchNorm with the channels first over a tensor of one dimension. *)
Definition bn_vector_first : BatchNorm.kwargs :=
  BatchNorm.Kwargs (layer_of (VTensor "Placeholder" [VStr "v"] [Some 6]))
    (9 # 10) (VFloat (1 # 100000)) VNone false VNone VNone VNone
    "channels_first" (VStr "bn").

(** The weights a layer has remembered so far. *)
Definition local_weights (s : state) : list value :=
  match self s !! "_local_weights" with
  | Some (VList ws) => ws
  | _ => []
  end.

(** The tensor that reads a variable. *)
Definition variable_tensor (v : tf_variable) : value :=
  VTensor "Variable" [VStr (var_name v)] (tf.to_shape (var_shape v)).

(** * Reasoning rules *)

Ltac unfold_monad :=
  unfold mbind, M_bind, bind, mret, M_ret, ret, lift, raise, modify, get,
         res_mbind, res_bind, res_ret in *.

Section Rules.

Context {A B : Type}.

Lemma bind_run (m : M A) (k : A -> M B) s :
  (m ≫= k) s = match m s with
               | (Ok a, s') => k a s'
               | (Raise e, s') => (Raise e, s')
               end.
Proof. reflexivity. Qed.

Lemma quiet_ret (a : A) : quiet (ret a).
Proof. intros s. auto. Qed.

Lemma quiet_mret (a : A) : quiet (mret a : M A).
Proof. intros s. auto. Qed.

Lemma quiet_raise e : quiet (raise e : M A).
Proof. intros s. auto. Qed.

Lemma quiet_lift (r : res A) : quiet (lift r).
Proof. intros s. auto. Qed.

Lemma quiet_bind (m : M A) (k : A -> M B) :
  quiet m -> (forall a, quiet (k a)) -> quiet (m ≫= k).
Proof.
  intros Hm Hk s. unfold final. rewrite bind_run.
  specialize (Hm s). unfold final in Hm.
  destruct (m s) as [[a|e] s']; simpl in *; [|assumption].
  specialize (Hk a s'). unfold final in Hk.
  destruct Hk as (-> & -> & ->). assumption.
Qed.

Lemma keeps_bind (m : M A) (k : A -> M B) :
  keeps m -> (forall a, keeps (k a)) -> keeps (m ≫= k).
Proof.
  intros Hm Hk s. unfold final. rewrite bind_run.
  specialize (Hm s). unfold final in Hm.
  destruct (m s) as [[a|e] s']; simpl in *; [|assumption].
  specialize (Hk a s'). unfold final in Hk. lia.
Qed.

Lemma allocates_bind n1 n2 (m : M A) (k : A -> M B) :
  allocates n1 m -> (forall a, allocates n2 (k a)) -> allocates (n1 + n2) (m ≫= k).
Proof.
  intros Hm Hk s b s2. rewrite bind_run.
  destruct (m s) as [[a|e] s'] eqn:E; [|discriminate].
  intros H2. apply Hm in E. apply Hk in H2. lia.
Qed.

Lemma allocates_weaken n n' (m : M A) :
  (n' <= n)%nat -> allocates n m -> allocates n' m.
Proof. intros Hle Hm s a s' E. apply Hm in E. lia. Qed.

Lemma keeps_allocates (m : M A) : keeps m -> allocates 0 m.
Proof.
  intros Hm s a s' E. specialize (Hm s). unfold final in Hm.
  rewrite E in Hm. simpl in Hm. lia.
Qed.

Lemma quiet_keeps (m : M A) : quiet m -> keeps m.
Proof. intros Hm s. destruct (Hm s) as [-> _]. lia. Qed.

Lemma raises_only_bind P (m : M A) (k : A -> M B) :
  raises_only P m -> (forall a, raises_only P (k a)) -> raises_only P (m ≫= k).
Proof.
  intros Hm Hk s e. unfold outcome. rewrite bind_run.
  specialize (Hm s). unfold outcome in Hm.
  destruct (m s) as [[a|e'] s']; simpl in *.
  - apply Hk.
  - intros [= ->]. auto.
Qed.

Lemma raises_only_ret P (a : A) : raises_only P (ret a).
Proof. intros s e. discriminate. Qed.

Lemma raises_only_mret P (a : A) : raises_only P (mret a : M A).
Proof. intros s e. discriminate. Qed.

Lemma raises_only_raise (P : exn -> Prop) e : P e -> raises_only P (raise e : M A).
Proof. intros He s e' [= <-]. assumption. Qed.

Lemma raises_only_lift P (r : res A) : res_raises_only P r -> raises_only P (lift r).
Proof. intros Hr s e. apply Hr. Qed.

Lemma quiet_variable_scope name (m : M A) : quiet m -> quiet (tf.variable_scope name m).
Proof.
  intros Hm s. unfold final, tf.variable_scope.
  specialize (Hm (set_scopes (cons name) s)). unfold final in Hm.
  destruct (m _) as [r s']. simpl in *. assumption.
Qed.

Lemma keeps_variable_scope name (m : M A) : keeps m -> keeps (tf.variable_scope name m).
Proof.
  intros Hm s. unfold final, tf.variable_scope.
  specialize (Hm (set_scopes (cons name) s)). unfold final in Hm.
  destruct (m _) as [r s']. simpl in *. assumption.
Qed.

Lemma allocates_variable_scope n name (m : M A) :
  allocates n m -> allocates n (tf.variable_scope name m).
Proof.
  intros Hm s a s2. unfold tf.variable_scope.
  destruct (m _) as [r s'] eqn:E. intros [= -> <-].
  apply Hm in E. simpl in *. assumption.
Qed.

Lemma raises_only_variable_scope P name (m : M A) :
  raises_only P m -> raises_only P (tf.variable_scope name m).
Proof.
  intros Hm s e. unfold outcome, tf.variable_scope.
  specialize (Hm (set_scopes (cons name) s) e). unfold outcome in Hm.
  destruct (m _) as [r s']. simpl in *. assumption.
Qed.

End Rules.

Lemma quiet_getattr cls name : quiet (Obj.getattr cls name).
Proof. intros s. unfold final, Obj.getattr. destruct (self s !! name); auto. Qed.

Lemma quiet_setattr name v : quiet (Obj.setattr name v).
Proof. intros s. auto. Qed.

Lemma quiet_logging_info t : quiet (logging_info t).
Proof. intros s. auto. Qed.

Lemma quiet_Layer_init kwargs : quiet (Layer.__init__ kwargs).
Proof.
  induction kwargs as [|[k v] rest IH]; simpl.
  - apply quiet_ret.
  - apply quiet_bind; [apply quiet_setattr|intros _].
    apply quiet_bind; [|intros _; exact IH].
    destruct (String.eqb k "prev_layer"); [|apply quiet_ret].
    apply quiet_bind; [apply quiet_lift|intros o; apply quiet_setattr].
Qed.

Lemma get_variable_run name shape init tr s :
  tf.get_variable name shape init tr s =
    (Ok (VTensor "Variable" [VStr (tf.scoped_name (scopes s) name)] (tf.to_shape shape)),
     set_variables
       (fun vs => vs ++ [TfVariable (tf.scoped_name (scopes s) name) shape init tr]) s).
Proof. reflexivity. Qed.

Lemma allocates_get_variable name shape init tr :
  allocates 1 (tf.get_variable name shape init tr).
Proof.
  intros s a s'. rewrite get_variable_run. intros [= _ <-].
  simpl. rewrite length_app. simpl. lia.
Qed.

Lemma keeps_get_variable name shape init tr : keeps (tf.get_variable name shape init tr).
Proof.
  intros s. unfold final. rewrite get_variable_run. simpl.
  rewrite length_app. lia.
Qed.

Ltac quiet_tac :=
  repeat first
    [ apply quiet_ret | apply quiet_mret | apply quiet_raise | apply quiet_lift
    | apply quiet_getattr | apply quiet_setattr | apply quiet_logging_info
    | apply quiet_Layer_init
    | apply quiet_bind; [|intros ?]
    | match goal with
      | |- quiet (if ?b then _ else _) => destruct b
      end ].

Lemma getattr_some cls name s v :
  self s !! name = Some v -> Obj.getattr cls name s = (Ok v, s).
Proof. intros H. unfold Obj.getattr. rewrite H. reflexivity. Qed.

Lemma getattr_none cls name s :
  self s !! name = None ->
  Obj.getattr cls name s =
    (Raise (Exn AttributeError
              ("'" +:+ cls +:+ "' object has no attribute '" +:+ name +:+ "'")), s).
Proof. intros H. unfold Obj.getattr. rewrite H. reflexivity. Qed.

(** Symbolic execution: [look] settles a lookup among the attributes set
    so far, [step] runs the first statement of a sequence. *)
Ltac look :=
  cbn; first [ eassumption | simplify_map_eq; first [ eassumption | reflexivity ] ].

Ltac step :=
  rewrite bind_run;
  first [ erewrite getattr_some by look
        | rewrite getattr_none by look
        | idtac ];
  cbn.

(** ** What a computation can raise *)

Lemma raises_only_getattr (P : exn -> Prop) cls name :
  P (Exn AttributeError ("'" +:+ cls +:+ "' object has no attribute '" +:+ name +:+ "'")) ->
  raises_only P (Obj.getattr cls name).
Proof.
  intros HP s e. unfold outcome, Obj.getattr.
  destruct (self s !! name); simpl; [discriminate|]. intros [= <-]. exact HP.
Qed.

Lemma raises_only_setattr P name v : raises_only P (Obj.setattr name v).
Proof. intros s e. discriminate. Qed.

Lemma raises_only_logging_info P t : raises_only P (logging_info t).
Proof. intros s e. discriminate. Qed.

Lemma raises_only_get_variable P name shape init tr :
  raises_only P (tf.get_variable name shape init tr).
Proof. intros s e. discriminate. Qed.

Lemma raises_only_add_layers P o : raises_only P (Layer._add_layers o).
Proof. intros s e. discriminate. Qed.

Lemma raises_only_add_params P o : raises_only P (Layer._add_params o).
Proof. intros s e. discriminate. Qed.

Lemma raises_only_add_weights P o : raises_only P (Layer.add_weights o).
Proof. intros s e. discriminate. Qed.

(** Case analysis on every [match] of a hypothesis that equates a result
    with a raise. *)
Ltac raise_cases H :=
  repeat match type of H with
         | context [match ?x with _ => _ end] => destruct x eqn:?; simpl in H
         end;
  try discriminate H.

Lemma get_shape_raises (P : exn -> Prop) t :
  (forall m, P (Exn AttributeError m)) -> res_raises_only P (tf.get_shape t).
Proof.
  intros HP e He. unfold tf.get_shape in He.
  raise_cases He; injection He as <-; apply HP.
Qed.

Lemma getitem_raises {A} (P : exn -> Prop) (l : list A) i :
  (forall m, P (Exn IndexError m)) -> res_raises_only P (getitem l i).
Proof.
  intros HP e He. unfold getitem in He.
  raise_cases He; injection He as <-; apply HP.
Qed.

Lemma call_raises (P : exn -> Prop) f x :
  (forall m, P (Exn TypeError m)) -> res_raises_only P (Obj.call f x).
Proof.
  intros HP e He. unfold Obj.call in He.
  raise_cases He; injection He as <-; apply HP.
Qed.

Lemma scope_name_raises (P : exn -> Prop) v :
  (forall m, P (Exn TypeError m)) -> res_raises_only P (tf.scope_name v).
Proof.
  intros HP e He. unfold tf.scope_name in He.
  raise_cases He; injection He as <-; apply HP.
Qed.

Lemma getattr_of_raises (P : exn -> Prop) o name :
  (forall m, P (Exn AttributeError m)) -> res_raises_only P (Obj.getattr_of o name).
Proof.
  intros HP e He. unfold Obj.getattr_of in He.
  raise_cases He; injection He as <-; apply HP.
Qed.

Lemma res_raises_only_bind {A B} (P : exn -> Prop) (r : res A) (k : A -> res B) :
  res_raises_only P r -> (forall a, res_raises_only P (k a)) ->
  res_raises_only P (r ≫= k).
Proof.
  intros Hr Hk e. destruct r as [a|e']; simpl.
  - apply Hk.
  - intros [= ->]. apply Hr. reflexivity.
Qed.

Lemma res_raises_only_ok {A} (P : exn -> Prop) (a : A) : res_raises_only P (Ok a).
Proof. intros e. discriminate. Qed.

Lemma res_raises_only_mret {A} (P : exn -> Prop) (a : A) :
  res_raises_only P (mret a).
Proof. intros e. discriminate. Qed.

Lemma res_raises_only_raise {A} (P : exn -> Prop) e :
  P e -> res_raises_only P (Raise e : res A).
Proof. intros HP e' [= <-]. assumption. Qed.

Section HelperRaises.

Context {T S : Type} `{TensorOps T S}.
Variable P : exn -> Prop.
Hypothesis dim0_raises : forall b : T, res_raises_only P (t_dim0 b).
Hypothesis format_raises :
  forall f, P (Exn ValueError ("invalid data_format: " +:+ f)).

Lemma to_channel_first_bias_raises (b : T) :
  res_raises_only P (_to_channel_first_bias b).
Proof.
  unfold _to_channel_first_bias.
  apply res_raises_only_bind; [apply dim0_raises|intros; apply res_raises_only_mret].
Qed.

Lemma bias_scale_raises (x b : T) f : res_raises_only P (_bias_scale x b f).
Proof.
  unfold _bias_scale.
  destruct (String.eqb f "NHWC"); [apply res_raises_only_mret|].
  destruct (String.eqb f "NCHW"); [|apply res_raises_only_raise, format_raises].
  apply res_raises_only_bind;
    [apply to_channel_first_bias_raises|intros; apply res_raises_only_mret].
Qed.

Lemma bias_add_raises (x b : T) f : res_raises_only P (_bias_add x b f).
Proof.
  unfold _bias_add.
  destruct (String.eqb f "NHWC"); [apply res_raises_only_mret|].
  destruct (String.eqb f "NCHW"); [|apply res_raises_only_raise, format_raises].
  apply res_raises_only_bind;
    [apply to_channel_first_bias_raises|intros; apply res_raises_only_mret].
Qed.

Lemma batch_normalization_raises (x mean var : T) offset scale (eps : S) df :
  P (Exn KeyError df) ->
  res_raises_only P (batch_normalization x mean var offset scale eps df).
Proof.
  intros Hkey. unfold batch_normalization.
  assert (Hd : forall d, res_raises_only P (dict_getitem (A:=string) d df)).
  { intros d. unfold dict_getitem. destruct (assoc df d);
      [apply res_raises_only_ok|apply res_raises_only_raise, Hkey]. }
  apply res_raises_only_bind; [apply Hd|intros f1].
  apply res_raises_only_bind; [apply bias_scale_raises|intros sc].
  apply res_raises_only_bind; [apply Hd|intros f2].
  apply bias_add_raises.
Qed.

End HelperRaises.

Lemma graph_dim0_raises (P : exn -> Prop) (b : value) :
  (forall m, P (Exn IndexError m)) -> (forall m, P (Exn TypeError m)) ->
  res_raises_only P (t_dim0 b).
Proof.
  intros H1 H2. simpl.
  apply res_raises_only_bind; [apply getitem_raises, H1|intros d].
  destruct d; [apply res_raises_only_ok|apply res_raises_only_raise, H2].
Qed.

Lemma raises_only_Layer_init (P : exn -> Prop) kwargs :
  (forall m, P (Exn AttributeError m)) -> raises_only P (Layer.__init__ kwargs).
Proof.
  intros HP. induction kwargs as [|[k v] rest IH]; simpl.
  - apply raises_only_ret.
  - apply raises_only_bind; [apply raises_only_setattr|intros _].
    apply raises_only_bind; [|intros _; exact IH].
    destruct (String.eqb k "prev_layer"); [|apply raises_only_ret].
    apply raises_only_bind; [|intros; apply raises_only_setattr].
    apply raises_only_lift, getattr_of_raises, HP.
Qed.

Lemma raises_only_apply_activation (P : exn -> Prop) cls x :
  (forall m, P (Exn AttributeError m)) -> (forall m, P (Exn TypeError m)) ->
  raises_only P (Layer._apply_activation cls x).
Proof.
  intros H1 H2. unfold Layer._apply_activation.
  apply raises_only_bind; [apply raises_only_getattr, H1|intros act].
  destruct (is_none act); [apply raises_only_ret|].
  apply raises_only_lift, call_raises, H2.
Qed.

Ltac ro_tac :=
  repeat first
    [ apply raises_only_ret | apply raises_only_mret
    | apply raises_only_getattr; solve [auto]
    | apply raises_only_apply_activation; solve [auto]
    | apply raises_only_setattr | apply raises_only_logging_info
    | apply raises_only_get_variable | apply raises_only_add_layers
    | apply raises_only_add_params | apply raises_only_add_weights
    | apply raises_only_variable_scope
    | apply raises_only_bind; [|intros ?]
    | match goal with
      | |- raises_only _ (if ?b then _ else _) => destruct b
      | |- raises_only _ (let '(_, _) := ?p in _) => destruct p
      end ].

(** ** The constructor of BatchNorm *)

(** Whatever BatchNorm.__init__ raises is a failed lookup or call, or one
    of its two explicit errors when the corresponding check fails. *)
Lemma BatchNorm_init_raises (P : exn -> Prop) a :
  (forall m, P (Exn AttributeError m)) -> (forall m, P (Exn TypeError m)) ->
  (forall m, P (Exn IndexError m)) -> (forall m, P (Exn KeyError m)) ->
  (forall f, P (Exn ValueError ("invalid data_format: " +:+ f))) ->
  P BatchNorm.decay_error \/
    lt (BatchNorm.decay a) 0 || lt 1 (BatchNorm.decay a) = false ->
  P BatchNorm.data_format_error \/
    (BatchNorm.data_format a = "channels_last" \/
     BatchNorm.data_format a = "channels_first") ->
  raises_only P (BatchNorm.__init__ a).
Proof.
  intros HA HT HI HK HV Hdecay Hdf. unfold BatchNorm.__init__.
  apply raises_only_bind; [apply raises_only_Layer_init, HA|intros _].
  apply raises_only_bind; [apply raises_only_getattr, HA|intros _].
  apply raises_only_bind; [apply raises_only_getattr, HA|intros _].
  apply raises_only_bind; [apply raises_only_logging_info|intros _].
  destruct (lt (BatchNorm.decay a) 0 || lt 1 (BatchNorm.decay a)) eqn:Hd.
  { destruct Hdecay as [Hdecay|Hdecay]; [|discriminate].
    apply raises_only_raise, Hdecay. }
  apply raises_only_bind; [apply raises_only_getattr, HA|intros inputs].
  apply raises_only_bind;
    [apply raises_only_lift, get_shape_raises, HA|intros x_shape].
  apply raises_only_bind.
  { destruct (String.eqb_spec (BatchNorm.data_format a) "channels_last");
      [apply raises_only_ret|].
    destruct (String.eqb_spec (BatchNorm.data_format a) "channels_first");
      [apply raises_only_ret|].
    destruct Hdf as [Hdf|[Hdf|Hdf]]; try contradiction.
    apply raises_only_raise, Hdf. }
  intros axis.
  apply raises_only_bind;
    [apply raises_only_lift, getitem_raises, HI|intros params_shape].
  apply raises_only_bind;
    [apply raises_only_lift, scope_name_raises, HT|intros scope].
  ro_tac.
  all: apply raises_only_lift, batch_normalization_raises;
    auto using graph_dim0_raises.
Qed.

Lemma Layer_init_prev prev o act name s :
  Obj.getattr_of prev "outputs" = Ok o ->
  Layer.__init__ [("prev_layer", prev); ("act", act); ("name", name)] s
  = (Ok tt, after_base prev o act name s).
Proof.
  intros H. simpl. rewrite !bind_run. simpl. rewrite !bind_run. simpl.
  unfold lift. rewrite H. reflexivity.
Qed.

Lemma lt_true_iff x y : lt x y = true <-> (x < y)%Q.
Proof.
  unfold lt. rewrite negb_true_iff, <- not_true_iff_false, Qle_bool_iff.
  split; [apply Qnot_le_lt|apply Qlt_not_le].
Qed.

Lemma decay_check_iff d : lt d 0 || lt 1 d = true <-> out_of_range d.
Proof. unfold out_of_range. rewrite orb_true_iff, !lt_true_iff. reflexivity. Qed.

(** The state in which BatchNorm.__init__ checks the decay. *)
Lemma BatchNorm_init_decay a s o :
  Obj.getattr_of (BatchNorm.prev_layer a) "outputs" = Ok o ->
  lt (BatchNorm.decay a) 0 || lt 1 (BatchNorm.decay a) = true ->
  BatchNorm.__init__ a s =
    (Raise BatchNorm.decay_error,
     set_log (fun l => l ++ ["BatchNorm %s: decay: %f epsilon: %f act: %s is_train: %s"])
       (after_base (BatchNorm.prev_layer a) o (BatchNorm.act a) (BatchNorm.name a) s)).
Proof.
  intros Ho Hd. unfold BatchNorm.__init__.
  rewrite bind_run, (Layer_init_prev _ o) by assumption.
  step. step. step. rewrite Hd. reflexivity.
Qed.

Lemma BatchNorm_init_data_format a s o op args shape :
  Obj.getattr_of (BatchNorm.prev_layer a) "outputs" = Ok o ->
  o = VTensor op args shape ->
  lt (BatchNorm.decay a) 0 || lt 1 (BatchNorm.decay a) = false ->
  BatchNorm.data_format a <> "channels_last" ->
  BatchNorm.data_format a <> "channels_first" ->
  BatchNorm.__init__ a s =
    (Raise BatchNorm.data_format_error,
     set_log (fun l => l ++ ["BatchNorm %s: decay: %f epsilon: %f act: %s is_train: %s"])
       (after_base (BatchNorm.prev_layer a) o (BatchNorm.act a) (BatchNorm.name a) s)).
Proof.
  intros Ho -> Hd H1 H2. unfold BatchNorm.__init__.
  rewrite bind_run, (Layer_init_prev _ (VTensor op args shape)) by assumption.
  step. step. step. rewrite Hd. step. step. rewrite bind_run.
  apply String.eqb_neq in H1, H2. rewrite H1, H2. reflexivity.
Qed.

(** ** Constructors that only record their configuration *)

Lemma str_in_padding p :
  str_in p ["SAME"; "VALID"] = true <-> p = "SAME" \/ p = "VALID".
Proof.
  unfold str_in. simpl. rewrite !orb_true_iff, !String.eqb_eq.
  intuition discriminate.
Qed.

Lemma AtrousConv2dLayer_init_run a s :
  AtrousConv2dLayer.__init__ a s =
    if str_in (upper (AtrousConv2dLayer.padding a)) ["SAME"; "VALID"]
    then (Ok tt, final (AtrousConv2dLayer.__init__ a) s)
    else (Raise AtrousConv2dLayer.padding_error, s).
Proof.
  unfold final, AtrousConv2dLayer.__init__. destruct (str_in _ _); reflexivity.
Qed.

Lemma AtrousDeConv2dLayer_init_run a s :
  AtrousDeConv2dLayer.__init__ a s =
    if str_in (upper (AtrousDeConv2dLayer.padding a)) ["SAME"; "VALID"]
    then (Ok tt, final (AtrousDeConv2dLayer.__init__ a) s)
    else (Raise AtrousDeConv2dLayer.padding_error, s).
Proof.
  unfold final, AtrousDeConv2dLayer.__init__. destruct (str_in _ _); reflexivity.
Qed.

Lemma padding_check_cases p (X : Prop) :
  (str_in p ["SAME"; "VALID"] = true -> (p = "SAME" \/ p = "VALID") -> X) ->
  (str_in p ["SAME"; "VALID"] = false -> (p <> "SAME" /\ p <> "VALID") -> X) -> X.
Proof.
  intros H1 H2. destruct (str_in p ["SAME"; "VALID"]) eqn:E.
  - apply H1; [reflexivity|]. apply str_in_padding, E.
  - apply H2; [reflexivity|]. split; intros ->; discriminate.
Qed.


(** The example of the specification: padding='BOGUS' fails, and the check
    is made after upper-casing. *)
Example padding_bogus s :
  outcome (AtrousConv2dLayer.__init__ conv_bogus) s
  = Raise (Exn ValueError
             "`padding` value is not valid, should be either: 'SAME' or 'VALID'").
Proof. reflexivity. Qed.

Example padding_lower_case s :
  outcome (AtrousDeConv2dLayer.__init__
             (AtrousDeConv2dLayer.Kwargs VNone (VList []) (VInt 2)
                "valid" VNone VNone VNone VNone VNone (VStr "t"))) s
  = Ok tt.
Proof. reflexivity. Qed.

(** ** The decay of BatchNorm *)

Lemma BatchNorm_decay_error_only a s :
  outcome (BatchNorm.__init__ a) s = Raise BatchNorm.decay_error ->
  lt (BatchNorm.decay a) 0 || lt 1 (BatchNorm.decay a) = true.
Proof.
  intros H.
  destruct (lt (BatchNorm.decay a) 0 || lt 1 (BatchNorm.decay a)) eqn:Hd; [reflexivity|].
  exfalso.
  assert (Hro : raises_only (fun e => e <> BatchNorm.decay_error) (BatchNorm.__init__ a)).
  { apply BatchNorm_init_raises; try (intros; discriminate).
    - right. exact Hd.
    - left. discriminate. }
  exact (Hro s _ H eq_refl).
Qed.

Lemma BatchNorm_init_quiet_on_decay a :
  lt (BatchNorm.decay a) 0 || lt 1 (BatchNorm.decay a) = true ->
  quiet (BatchNorm.__init__ a).
Proof.
  intros Hd. unfold BatchNorm.__init__. rewrite Hd. quiet_tac.
Qed.



(** C7.  A failed validation leaves nothing behind.  When the padding
    check of an atrous constructor raises, the state is the one the
    constructor started in; when the decay check of BatchNorm raises, no
    variable has been created and neither an output nor a parameter has
    been registered. *)
Theorem validation_failure_is_atomic :
  (forall a s,
     outcome (AtrousConv2dLayer.__init__ a) s = Raise AtrousConv2dLayer.padding_error ->
     final (AtrousConv2dLayer.__init__ a) s = s) /\
  (forall a s,
     outcome (AtrousDeConv2dLayer.__init__ a) s = Raise AtrousDeConv2dLayer.padding_error ->
     final (AtrousDeConv2dLayer.__init__ a) s = s) /\
  (forall a s,
     outcome (BatchNorm.__init__ a) s = Raise BatchNorm.decay_error ->
     variables (final (BatchNorm.__init__ a) s) = variables s /\
     graph (final (BatchNorm.__init__ a) s) = graph s /\
     params (final (BatchNorm.__init__ a) s) = params s).
Proof.
  split; [|split].
  - intros a s. unfold outcome, final at 1. rewrite AtrousConv2dLayer_init_run.
    destruct (str_in _ _); simpl; [discriminate|reflexivity].
  - intros a s. unfold outcome, final at 1. rewrite AtrousDeConv2dLayer_init_run.
    destruct (str_in _ _); simpl; [discriminate|reflexivity].
  - intros a s H. apply BatchNorm_init_quiet_on_decay.
    apply BatchNorm_decay_error_only with s. exact H.
Qed.

Lemma validation_failure_is_atomic_witness :
  final (AtrousConv2dLayer.__init__ conv_bogus) empty_state = empty_state /\
  variables (final (BatchNorm.__init__ bn_decay_above) empty_state) = [].
Proof.
  split.
  - apply (proj1 validation_failure_is_atomic). reflexivity.
  - apply (proj2 (proj2 validation_failure_is_atomic) bn_decay_above empty_state).
    reflexivity.
Defined.
(** ** Where the variables are created *)

Section Allocation.

Context {A B : Type}.

Lemma allocates_bind_l n (m : M A) (k : A -> M B) :
  allocates n m -> (forall a, keeps (k a)) -> allocates n (m ≫= k).
Proof.
  intros Hm Hk. replace n with (n + 0)%nat by lia.
  apply allocates_bind; [exact Hm|intros a; apply keeps_allocates, Hk].
Qed.

Lemma allocates_bind_r n (m : M A) (k : A -> M B) :
  keeps m -> (forall a, allocates n (k a)) -> allocates n (m ≫= k).
Proof.
  intros Hm Hk. change n with (0 + n)%nat.
  apply allocates_bind; [apply keeps_allocates, Hm|exact Hk].
Qed.

End Allocation.

Lemma keeps_add_layers o : keeps (Layer._add_layers o).
Proof. intros s. simpl. lia. Qed.

Lemma keeps_add_params o : keeps (Layer._add_params o).
Proof. intros s. simpl. lia. Qed.

Lemma keeps_add_weights o : keeps (Layer.add_weights o).
Proof. intros s. simpl. lia. Qed.

Lemma keeps_get_tf_variable name shape init kw :
  keeps (Layer._get_tf_variable name shape init kw).
Proof.
  intros s. unfold final, Layer._get_tf_variable, Obj.setattr. unfold_monad. cbn.
  rewrite length_app; lia.
Qed.

Lemma allocates_get_tf_variable name shape init kw :
  allocates 1 (Layer._get_tf_variable name shape init kw).
Proof.
  intros s a s'. unfold Layer._get_tf_variable, Obj.setattr. unfold_monad. cbn.
  intros [= _ <-]; cbn. rewrite length_app. simpl. lia.
Qed.

Lemma keeps_get_collection scope : keeps (LayerNorm.get_collection scope).
Proof. intros s. unfold final, LayerNorm.get_collection. unfold_monad. simpl. lia. Qed.

Lemma keeps_get : keeps get.
Proof. intros s. unfold final, get. simpl. lia. Qed.

Ltac keeps_tac :=
  repeat first
    [ apply quiet_keeps;
      first [ apply quiet_ret | apply quiet_mret | apply quiet_raise | apply quiet_lift
            | apply quiet_getattr | apply quiet_setattr | apply quiet_logging_info
            | apply quiet_Layer_init ]
    | apply keeps_get
    | apply keeps_get_variable | apply keeps_get_tf_variable
    | apply keeps_add_layers | apply keeps_add_params | apply keeps_add_weights
    | apply keeps_get_collection
    | apply keeps_variable_scope
    | apply keeps_bind; [|intros ?]
    | match goal with
      | |- keeps (if ?b then _ else _) => destruct b
      | |- keeps (let '(_, _) := ?p in _) => destruct p
      end ].

Lemma keeps_apply_activation cls x : keeps (Layer._apply_activation cls x).
Proof. unfold Layer._apply_activation. keeps_tac. Qed.

(** Walk down a sequence to the statement that creates a variable. *)
Ltac alloc_tac :=
  first
    [ apply allocates_get_tf_variable
    | apply allocates_get_variable
    | apply allocates_variable_scope; alloc_tac
    | apply allocates_bind_l;
      [ first [ apply allocates_get_tf_variable
              | apply allocates_get_variable
              | apply allocates_variable_scope; alloc_tac ]
      | intros; keeps_tac; try apply keeps_apply_activation ]
    | apply allocates_bind_r;
      [ keeps_tac; try apply keeps_apply_activation | intros ?; alloc_tac ] ].

Lemma AtrousConv2dLayer_compile_allocates p : allocates 1 (AtrousConv2dLayer.compile p).
Proof.
  unfold AtrousConv2dLayer.compile, Layer.compile, Layer._parse_inputs. alloc_tac.
Qed.

Lemma AtrousDeConv2dLayer_compile_allocates p : allocates 1 (AtrousDeConv2dLayer.compile p).
Proof.
  unfold AtrousDeConv2dLayer.compile, Layer.compile, Layer._parse_inputs. alloc_tac.
Qed.

Lemma allocates_two {A B} (m : M A) (k : A -> M B) :
  allocates 1 m -> (forall a, allocates 1 (k a)) -> allocates 2 (m ≫= k).
Proof. apply (allocates_bind 1 1). Qed.

Lemma InstanceNorm_build_allocates x : allocates 2 (InstanceNorm.build x).
Proof.
  unfold InstanceNorm.build.
  do 4 (apply allocates_bind_r; [keeps_tac|intros ?]).
  apply allocates_two; [apply allocates_get_variable|intros ?]. alloc_tac.
Qed.

Lemma BatchNorm_init_allocates a : allocates 2 (BatchNorm.__init__ a).
Proof.
  unfold BatchNorm.__init__.
  do 4 (apply allocates_bind_r; [keeps_tac|intros ?]).
  destruct (lt _ _ || lt _ _).
  { intros s x s'. discriminate. }
  do 5 (apply allocates_bind_r; [keeps_tac|intros ?]).
  apply allocates_bind_l; [|intros; keeps_tac].
  apply allocates_variable_scope.
  apply allocates_bind_r; [keeps_tac|intros [beta vs]].
  apply allocates_bind_r; [keeps_tac|intros [gamma vs']].
  apply allocates_two; [apply allocates_get_variable|intros ?].
  apply allocates_bind_l; [apply allocates_get_variable|]. 
  intros. keeps_tac. all: try apply keeps_apply_activation.
Qed.

Lemma LayerNorm_layer_norm_allocates x (center scale : bool) act tr scope :
  allocates ((if center then 1 else 0) + (if scale then 1 else 0))
    (LayerNorm.layer_norm x center scale act tr scope).
Proof.
  unfold LayerNorm.layer_norm. apply allocates_variable_scope.
  apply allocates_bind.
  - destruct center; [apply allocates_get_variable|apply keeps_allocates; keeps_tac].
  - intros beta. apply allocates_bind_l; [|intros; keeps_tac].
    destruct scale; [apply allocates_get_variable|apply keeps_allocates; keeps_tac].
Qed.

Lemma LayerNorm_init_allocates a :
  allocates ((if LayerNorm.center a then 1 else 0) + (if LayerNorm.scale a then 1 else 0))
    (LayerNorm.__init__ a).
Proof.
  unfold LayerNorm.__init__.
  do 5 (apply allocates_bind_r; [keeps_tac|intros ?]).
  apply allocates_bind_l; [|intros; keeps_tac].
  apply allocates_variable_scope.
  do 3 (apply allocates_bind_r; [keeps_tac|intros ?]).
  apply allocates_bind_l; [apply LayerNorm_layer_norm_allocates|intros; keeps_tac].
Qed.

Lemma AtrousConv2dLayer_init_quiet a : quiet (AtrousConv2dLayer.__init__ a).
Proof. unfold AtrousConv2dLayer.__init__. quiet_tac. Qed.

Lemma AtrousDeConv2dLayer_init_quiet a : quiet (AtrousDeConv2dLayer.__init__ a).
Proof. unfold AtrousDeConv2dLayer.__init__. quiet_tac. Qed.

Lemma LocalResponseNorm_init_quiet a : quiet (LocalResponseNorm.__init__ a).
Proof. unfold LocalResponseNorm.__init__. quiet_tac. Qed.

Lemma InstanceNorm_init_quiet a : quiet (InstanceNorm.__init__ a).
Proof. unfold InstanceNorm.__init__. quiet_tac. Qed.

Lemma GroupNorm_init_quiet a : quiet (GroupNorm.__init__ a).
Proof. unfold GroupNorm.__init__. quiet_tac. Qed.

Lemma SwitchNorm_init_quiet a : quiet (SwitchNorm.__init__ a).
Proof. unfold SwitchNorm.__init__. quiet_tac. Qed.


(** The constructors and the build steps of the theorem do return: the
    atrous layer compiled against the sample batch has its filter and its
    bias in the store, and the default BatchNorm has four variables when
    its constructor returns. *)
Example AtrousConv2dLayer_lifecycle :
  let s1 := final (AtrousConv2dLayer.__init__ AtrousConv2dLayer.defaults) empty_state in
  variables s1 = [] /\
  outcome (AtrousConv2dLayer.compile (layer_of image_batch)) s1 = Ok tt /\
  map var_name (variables (final (AtrousConv2dLayer.compile (layer_of image_batch)) s1))
  = ["atrous_2d/W_atrous_conv2d"; "atrous_2d/b_atrous_conv2d"].
Proof. vm_compute. auto. Qed.


Example BatchNorm_init_variables :
  map var_name
    (variables (final (BatchNorm.__init__ (BatchNorm.defaults (layer_of image_batch)))
                  empty_state))
  = ["batchnorm/beta"; "batchnorm/gamma"; "batchnorm/moving_mean";
     "batchnorm/moving_variance"].
Proof. vm_compute. reflexivity. Qed.

(** ** SwitchNorm.build *)

Lemma getitem_last {A} (l : list A) :
  l <> [] -> exists x, getitem l (-1) = Ok x.
Proof.
  intros Hl. unfold getitem.
  assert (Hn : 0 < Z.of_nat (length l)) by (destruct l; [contradiction|simpl; lia]).
  change (-1 <? 0) with true. cbv iota.
  destruct (_ || _) eqn:E.
  { apply orb_true_iff in E. destruct E as [E|E]; [apply Z.ltb_lt in E|apply Z.leb_le in E]; lia. }
  destruct (nth_error l (Z.to_nat (-1 + Z.of_nat (length l)))) eqn:En; [eauto|].
  apply nth_error_None in En. lia.
Qed.

Lemma getitem_nil {A} i : getitem (@nil A) i = Raise (Exn IndexError "list index out of range").
Proof.
  unfold getitem. simpl. destruct (i <? 0) eqn:E; destruct (_ || _) eqn:E'; try reflexivity.
  - apply orb_false_iff in E' as [E1 E2]. apply Z.ltb_lt in E. apply Z.ltb_ge in E1. lia.
  - apply orb_false_iff in E' as [E1 E2]. apply Z.ltb_ge in E1. apply Z.leb_gt in E2. lia.
Qed.

Lemma load_gamma_init x ch :
  Names.load (SwitchNorm.build_locals x ch) "gamma_init"
  = Raise (Exn NameError "name 'gamma_init' is not defined").
Proof. reflexivity. Qed.

Lemma load_tf x ch :
  Names.load (SwitchNorm.build_locals x ch) "tf" = Ok (VCallable "tf" []).
Proof. reflexivity. Qed.

Lemma load_ch x ch :
  Names.load (SwitchNorm.build_locals x ch) "ch" = Ok ch.
Proof. reflexivity. Qed.

Lemma SwitchNorm_build_run x s :
  SwitchNorm.build x s =
    (match tf.get_shape x with
     | Ok shape =>
         match getitem shape (-1) with
         | Ok _ => Raise (Exn NameError "name 'gamma_init' is not defined")
         | Raise e => Raise e
         end
     | Raise e => Raise e
     end, s).
Proof.
  unfold SwitchNorm.build. rewrite bind_run. unfold lift at 1.
  destruct (tf.get_shape x) as [shape|e]; [|reflexivity].
  rewrite bind_run. unfold lift at 1.
  destruct (getitem shape (-1)) as [d|e]; [|reflexivity].
  rewrite bind_run. unfold lift at 1. rewrite load_tf.
  rewrite bind_run. unfold lift at 1. rewrite load_ch.
  rewrite bind_run. unfold lift at 1. rewrite load_gamma_init.
  reflexivity.
Qed.

(** C8.  SwitchNorm.build reads the names gamma_init and beta_init, which
    neither the function nor the module binds.  Built against a tensor of
    rank at least one it raises NameError for gamma_init; whatever its
    input it raises and leaves the state as it was, so constructing a
    SwitchNorm and applying it to an input never completes. *)
Theorem SwitchNorm_build_raises :
  (forall op args shape s,
     shape <> [] ->
     outcome (SwitchNorm.build (VTensor op args shape)) s
     = Raise (Exn NameError "name 'gamma_init' is not defined")) /\
  (forall x s, raises (SwitchNorm.build x) s /\ final (SwitchNorm.build x) s = s) /\
  (forall a x s,
     raises (SwitchNorm.__init__ a;;
             Layer.__call__ SwitchNorm.build SwitchNorm.forward x) s).
Proof.
  split; [|split].
  - intros op args shape s Hs. unfold outcome. rewrite SwitchNorm_build_run. simpl.
    destruct (getitem_last shape Hs) as [d ->]. reflexivity.
  - intros x s. unfold raises, outcome, final. rewrite SwitchNorm_build_run. simpl.
    split; [|reflexivity].
    destruct (tf.get_shape x) as [shape|e]; [|eauto].
    destruct (getitem shape (-1)); eauto.
  - intros a x s. unfold raises, outcome. rewrite bind_run.
    destruct (SwitchNorm.__init__ a s) as [[[]|e] s1]; [|simpl; eauto].
    unfold Layer.__call__. rewrite bind_run. cbn.
    rewrite bind_run, SwitchNorm_build_run.
    destruct (tf.get_shape x) as [shape|e]; [|simpl; eauto].
    destruct (getitem shape (-1)); simpl; eauto.
Qed.

Lemma SwitchNorm_build_raises_witness :
  outcome (SwitchNorm.build image_batch) empty_state
  = Raise (Exn NameError "name 'gamma_init' is not defined").
Proof.
  apply (proj1 SwitchNorm_build_raises). discriminate.
Defined.

(** ** InstanceNorm.forward *)

Lemma InstanceNorm_forward_run x s scale epsilon offset :
  self s !! "scale" = Some scale ->
  self s !! "epsilon" = Some epsilon ->
  self s !! "offset" = Some offset ->
  self s !! "act" = Some VNone ->
  InstanceNorm.forward x s = (Raise not_callable, s).
Proof.
  intros Hs He Ho Ha. unfold InstanceNorm.forward.
  step. step. step. step. reflexivity.
Qed.

Lemma InstanceNorm_forward_stuck x s :
  self s !! "act" = Some VNone -> raises (InstanceNorm.forward x) s.
Proof.
  intros Ha. unfold raises, outcome, InstanceNorm.forward.
  destruct (self s !! "scale") as [scale|] eqn:Hs; [|step; eexists; reflexivity].
  destruct (self s !! "epsilon") as [epsilon|] eqn:He; [|step; step; eexists; reflexivity].
  destruct (self s !! "offset") as [offset|] eqn:Ho;
    [|step; step; step; eexists; reflexivity].
  step. step. step. step. eexists; reflexivity.
Qed.

Lemma InstanceNorm_lifecycle a n op args shape s :
  InstanceNorm.act a = VNone ->
  InstanceNorm.name a = VStr n ->
  shape <> [] ->
  outcome (InstanceNorm.__init__ a;;
           Layer.__call__ InstanceNorm.build InstanceNorm.forward (VTensor op args shape)) s
  = Raise not_callable.
Proof.
  intros Ha Hn Hs. destruct (getitem_last shape Hs) as [d Hd].
  unfold outcome, InstanceNorm.__init__, Layer.__call__, InstanceNorm.build,
    InstanceNorm.forward.
  cbn [Layer.__init__]. rewrite Ha, Hn.
  repeat (repeat step; rewrite ?Hd).
  reflexivity.
Qed.

Lemma GroupNorm_forward_guard x s int_shape df epsilon gamma beta :
  self s !! "int_shape" = Some int_shape ->
  self s !! "data_format" = Some df ->
  self s !! "epsilon" = Some epsilon ->
  self s !! "gamma" = Some gamma ->
  self s !! "beta" = Some beta ->
  self s !! "act" = Some VNone ->
  returns (GroupNorm.forward x) s.
Proof.
  intros H1 H2 H3 H4 H5 H6. unfold returns, outcome, GroupNorm.forward.
  repeat step. eexists; reflexivity.
Qed.

Lemma SwitchNorm_forward_guard x s mw vw epsilon gamma beta :
  self s !! "mean_weight_var" = Some mw ->
  self s !! "var_weight_var" = Some vw ->
  self s !! "epsilon" = Some epsilon ->
  self s !! "gamma" = Some gamma ->
  self s !! "beta" = Some beta ->
  self s !! "act" = Some VNone ->
  returns (SwitchNorm.forward x) s.
Proof.
  intros H1 H2 H3 H4 H5 H6. unfold returns, outcome, SwitchNorm.forward.
  cbn [SwitchNorm.moments].
  repeat step. eexists; reflexivity.
Qed.



(** ** GroupNorm.build *)
Arguments getitem : simpl never.
Arguments floordiv : simpl never.
Arguments mod_ : simpl never.
Arguments format_d : simpl never.



Lemma floordiv_ok c g : g <> 0 -> floordiv c g = Ok (c / g).
Proof. intros H. unfold floordiv. destruct (Z.eqb_spec g 0); [contradiction|reflexivity]. Qed.

Lemma mod_ok c g : g <> 0 -> mod_ c g = Ok (c mod g).
Proof. intros H. unfold mod_. destruct (Z.eqb_spec g 0); [contradiction|reflexivity]. Qed.




Ltac gn_run Hc :=
  repeat (repeat step;
          rewrite ?Hc, ?floordiv_ok, ?mod_ok by assumption;
          cbn).

Lemma GroupNorm_build_bata s op args (shape : list dim) df g c x0 :
  length shape = 4%nat ->
  valid_data_format df ->
  self s !! "data_format" = Some (VStr df) ->
  getitem shape (channel_index df) = Ok (Some c) ->
  self s !! "groups" = Some (VInt g) ->
  self s !! "inputs" = Some x0 ->
  self s !! "bata" = None ->
  g <> 0 -> g <= c -> c mod g = 0 ->
  exists s',
    GroupNorm.build (VTensor op args shape) s = (Raise missing_bata, s') /\
    variables s' =
      (variables s ++
       [TfVariable (tf.scoped_name (scopes s) "gamma") (group_param_shape df c)
          (tf.initializer "tf.ones_initializer" []) true;
        TfVariable (tf.scoped_name (scopes s) "beta") (group_param_shape df c)
          (tf.initializer "tf.zeros_initializer" []) true]).
Proof.
  intros Hlen Hdf Hattr Hc Hg Hin Hb Hg0 Hle Hmod.
  assert (Hlt : (c <? g) = false) by (apply Z.ltb_ge; lia).
  unfold GroupNorm.build.
  rewrite bind_run. cbn. rewrite Hlen. cbn.
  destruct Hdf as [-> | ->]; cbn in Hc.
  - gn_run Hc. rewrite Hlt. gn_run Hc. rewrite Hmod. cbn. gn_run Hc.
    eexists. split; [reflexivity|]. cbn. rewrite <- app_assoc. reflexivity.
  - gn_run Hc. rewrite Hlt. gn_run Hc. rewrite Hmod. cbn. gn_run Hc.
    eexists. split; [reflexivity|]. cbn. rewrite <- app_assoc. reflexivity.
Qed.



Section Stuck.

Context {A B : Type}.
Variable name : string.

Lemma stuck_bind (m : M A) (k : A -> M B) :
  keeps_absent name m -> (forall a, stuck_without name (k a)) ->
  stuck_without name (m ≫= k).
Proof.
  intros Hm Hk s Hs. unfold raises, outcome. rewrite bind_run.
  destruct (m s) as [[a|e] s'] eqn:E.
  - apply Hk. eapply Hm; eauto.
  - simpl. eauto.
Qed.

Lemma stuck_bind_l (m : M A) (k : A -> M B) :
  stuck_without name m -> stuck_without name (m ≫= k).
Proof.
  intros Hm s Hs. unfold raises, outcome. rewrite bind_run.
  destruct (Hm s Hs) as [e He]. unfold outcome in He.
  destruct (m s) as [[a|e'] s']; simpl in *; [discriminate|eauto].
Qed.

Lemma stuck_raise e : stuck_without name (raise e : M A).
Proof. intros s _. exists e. reflexivity. Qed.

Lemma stuck_getattr cls : stuck_without name (Obj.getattr cls name).
Proof.
  intros s Hs. unfold raises, outcome. rewrite getattr_none by assumption.
  simpl. eauto.
Qed.

Lemma keeps_absent_bind (m : M A) (k : A -> M B) :
  keeps_absent name m -> (forall a, keeps_absent name (k a)) ->
  keeps_absent name (m ≫= k).
Proof.
  intros Hm Hk s b s2 Hs. rewrite bind_run.
  destruct (m s) as [[a|e] s'] eqn:E; [|discriminate].
  intros H2. eapply Hk; [|exact H2]. eapply Hm; eauto.
Qed.

Lemma keeps_absent_ret (a : A) : keeps_absent name (ret a).
Proof. intros s b s' Hs [= _ <-]. assumption. Qed.

Lemma keeps_absent_raise e : keeps_absent name (raise e : M A).
Proof. intros s b s' Hs. discriminate. Qed.

Lemma keeps_absent_lift (r : res A) : keeps_absent name (lift r).
Proof. intros s b s' Hs [= _ <-]. assumption. Qed.

End Stuck.

Lemma keeps_absent_getattr name cls n : keeps_absent name (Obj.getattr cls n).
Proof.
  intros s b s' Hs. unfold Obj.getattr. destruct (self s !! n); [|discriminate].
  intros [= _ <-]. assumption.
Qed.

Lemma keeps_absent_setattr name n v :
  n <> name -> keeps_absent name (Obj.setattr n v).
Proof.
  intros Hn s b s' Hs H. injection H as _ <-. cbn.
  rewrite lookup_insert_ne by assumption. assumption.
Qed.

Lemma keeps_absent_get_variable name n shape init tr :
  keeps_absent name (tf.get_variable n shape init tr).
Proof. intros s b s' Hs [= _ <-]. assumption. Qed.

Ltac absent_tac :=
  repeat first
    [ apply keeps_absent_ret | apply keeps_absent_raise | apply keeps_absent_lift
    | apply keeps_absent_getattr | apply keeps_absent_setattr; discriminate
    | apply keeps_absent_get_variable
    | apply keeps_absent_bind; [|intros ?]
    | match goal with
      | |- keeps_absent _ (if ?b then _ else _) => destruct b
      end ].

Ltac stuck_tac :=
  repeat first
    [ apply stuck_raise
    | apply stuck_bind_l; apply stuck_getattr
    | apply stuck_bind; [absent_tac|intros ?]
    | match goal with
      | |- stuck_without _ (if ?b then _ else _) => destruct b
      end ].

Lemma GroupNorm_build_stuck x : stuck_without "bata" (GroupNorm.build x).
Proof. unfold GroupNorm.build. stuck_tac. Qed.

Lemma keeps_absent_logging_info name t : keeps_absent name (logging_info t).
Proof. intros s b s' Hs H. injection H as _ <-. assumption. Qed.

Lemma GroupNorm_init_keeps_absent a : keeps_absent "bata" (GroupNorm.__init__ a).
Proof.
  unfold GroupNorm.__init__. cbn [Layer.__init__].
  repeat first [ apply keeps_absent_logging_info | progress absent_tac | progress cbn ].
Qed.

Lemma GroupNorm_lifecycle_stuck a x :
  stuck_without "bata"
    (GroupNorm.__init__ a;; Layer.__call__ GroupNorm.build GroupNorm.forward x).
Proof.
  apply stuck_bind; [apply GroupNorm_init_keeps_absent|intros _].
  unfold Layer.__call__.
  apply stuck_bind; [absent_tac|intros _].
  apply stuck_bind_l. apply GroupNorm_build_stuck.
Qed.

(** The validation of GroupNorm.build. *)
Lemma GroupNorm_build_rejects s op args (shape : list dim) df g c :
  length shape = 4%nat ->
  valid_data_format df ->
  self s !! "data_format" = Some (VStr df) ->
  getitem shape (channel_index df) = Ok (Some c) ->
  self s !! "groups" = Some (VInt g) ->
  mod_ c g <> Ok 0 \/ c < g ->
  exists e s',
    GroupNorm.build (VTensor op args shape) s = (Raise e, s') /\
    variables s' = variables s /\
    (is_Some (self s !! "inputs") -> g <> 0 ->
     e = if c <? g then GroupNorm.groups_error g c
         else GroupNorm.commensurate_error g c).
Proof.
  intros Hlen Hdf Hattr Hc Hg Hbad.
  unfold GroupNorm.build.
  rewrite bind_run. cbn. rewrite Hlen. cbn.
  destruct (self s !! "inputs") as [x0|] eqn:Hin.
  2:{ destruct Hdf as [-> | ->]; cbn in Hc; gn_run Hc;
      (do 2 eexists; split; [reflexivity|split; [reflexivity|]]);
      intros [? [=]]. }
  destruct (Z.eq_dec g 0) as [->|Hg0].
  { destruct Hdf as [-> | ->]; cbn in Hc; gn_run Hc;
      (do 2 eexists; split; [reflexivity|split; [reflexivity|]]);
      intros _ []; reflexivity. }
  destruct (c <? g) eqn:Hlt.
  { destruct Hdf as [-> | ->]; cbn in Hc; gn_run Hc; rewrite Hlt;
      (do 2 eexists; split; [reflexivity|split; [reflexivity|]]);
      intros _ _; reflexivity. }
  assert (Hmod : (c mod g =? 0) = false).
  { apply Z.eqb_neq. intros Hz. destruct Hbad as [Hbad|Hbad].
    - apply Hbad. rewrite mod_ok by assumption. rewrite Hz. reflexivity.
    - apply Z.ltb_ge in Hlt. lia. }
  destruct Hdf as [-> | ->]; cbn in Hc; gn_run Hc; rewrite Hlt; gn_run Hc;
    rewrite Hmod; cbn;
    (do 2 eexists; split; [reflexivity|split; [reflexivity|]]);
    intros _ _; reflexivity.
Qed.

(** C2.  GroupNorm.build rejects a channel count the groups do not
    divide.  For a 4-D input with [c] channels under a valid data format
    and a layer configured with [g] groups, if [c % g] is not 0 (or is
    undefined), or if [g] exceeds [c], build raises before any variable is
    created; when self.inputs is set and [g] is not 0 the exception is the
    ValueError of the corresponding check. *)
Theorem GroupNorm_build_validation s op args (shape : list dim) df g c :
  length shape = 4%nat ->
  valid_data_format df ->
  self s !! "data_format" = Some (VStr df) ->
  getitem shape (channel_index df) = Ok (Some c) ->
  self s !! "groups" = Some (VInt g) ->
  mod_ c g <> Ok 0 \/ c < g ->
  raises (GroupNorm.build (VTensor op args shape)) s /\
  variables (final (GroupNorm.build (VTensor op args shape)) s) = variables s /\
  (is_Some (self s !! "inputs") -> g <> 0 ->
   outcome (GroupNorm.build (VTensor op args shape)) s
   = Raise (if c <? g then GroupNorm.groups_error g c
            else GroupNorm.commensurate_error g c)) /\
  exn_class (GroupNorm.groups_error g c) = ValueError /\
  exn_class (GroupNorm.commensurate_error g c) = ValueError.
Proof.
  intros Hlen Hdf Hattr Hc Hg Hbad.
  destruct (GroupNorm_build_rejects s op args shape df g c Hlen Hdf Hattr Hc Hg Hbad)
    as (e & s' & Hrun & Hvars & He).
  unfold raises, outcome, final. rewrite Hrun. simpl.
  split; [eauto|]. split; [exact Hvars|]. split; [|split; reflexivity].
  intros Hin Hg0. rewrite (He Hin Hg0). reflexivity.
Qed.

Lemma GroupNorm_build_validation_witness :
  outcome (GroupNorm.build image_batch) gn4_applied
  = Raise (Exn ValueError "6 channels is not commensurate with 4 groups.").
Proof.
  refine (proj1 (proj2 (proj2
            (GroupNorm_build_validation gn4_applied "Placeholder" [VStr "x"]
               [Some 8; Some 32; Some 32; Some 6] "channels_last" 4 6
               eq_refl (or_introl eq_refl) eq_refl eq_refl eq_refl _))) _ _).
  - left. discriminate.
  - eexists. reflexivity.
  - discriminate.
Defined.

(** C9.  GroupNorm.build stores self.beta and then reads self.bata.  On a
    layer that has no attribute bata, build never returns; when the
    validation passes it creates gamma and beta in the variable store and
    then raises AttributeError for bata.  Constructing a GroupNorm and
    applying it to an input therefore never completes. *)
Theorem GroupNorm_build_raises :
  (forall s op args (shape : list dim) df g c x0,
     length shape = 4%nat ->
     valid_data_format df ->
     self s !! "data_format" = Some (VStr df) ->
     getitem shape (channel_index df) = Ok (Some c) ->
     self s !! "groups" = Some (VInt g) ->
     self s !! "inputs" = Some x0 ->
     self s !! "bata" = None ->
     g <> 0 -> g <= c -> c mod g = 0 ->
     outcome (GroupNorm.build (VTensor op args shape)) s = Raise missing_bata /\
     variables (final (GroupNorm.build (VTensor op args shape)) s) =
       (variables s ++
        [TfVariable (tf.scoped_name (scopes s) "gamma") (group_param_shape df c)
           (tf.initializer "tf.ones_initializer" []) true;
         TfVariable (tf.scoped_name (scopes s) "beta") (group_param_shape df c)
           (tf.initializer "tf.zeros_initializer" []) true])) /\
  (forall x s, self s !! "bata" = None -> raises (GroupNorm.build x) s) /\
  (forall a x s,
     raises (GroupNorm.__init__ a;;
             Layer.__call__ GroupNorm.build GroupNorm.forward x) (fresh s)) /\
  exn_class missing_bata = AttributeError.
Proof.
  split; [|split; [|split]].
  - intros s op args shape df g c x0 Hlen Hdf Hattr Hc Hg Hin Hb Hg0 Hle Hmod.
    destruct (GroupNorm_build_bata s op args shape df g c x0
                Hlen Hdf Hattr Hc Hg Hin Hb Hg0 Hle Hmod) as (s' & Hrun & Hvars).
    unfold outcome, final. rewrite Hrun. simpl. split; [reflexivity|exact Hvars].
  - intros x s. apply GroupNorm_build_stuck.
  - intros a x s. apply GroupNorm_lifecycle_stuck. apply lookup_empty.
  - reflexivity.
Qed.

Lemma GroupNorm_build_raises_witness :
  outcome (GroupNorm.build image_batch) gn3_applied = Raise missing_bata.
Proof.
  refine (proj1 (proj1 GroupNorm_build_raises gn3_applied "Placeholder" [VStr "x"]
            [Some 8; Some 32; Some 32; Some 6] "channels_last" 3 6 image_batch
            eq_refl (or_introl eq_refl) eq_refl eq_refl eq_refl eq_refl eq_refl _ _ _)).
  - discriminate.
  - discriminate.
  - reflexivity.
Defined.

(** ** The data format *)

Lemma format_d_head z : exists ch rest, format_d z = String ch rest /\ ch <> "d"%char.
Proof.
  unfold format_d.
  destruct z as [|p|p]; simpl.
  - do 2 eexists. split; [reflexivity|discriminate].
  - destruct (Pos.to_uint p); simpl; do 2 eexists; (split; [reflexivity|discriminate]).
  - do 2 eexists. split; [reflexivity|discriminate].
Qed.

Lemma commensurate_differs g c :
  GroupNorm.commensurate_error g c <> GroupNorm.data_format_error.
Proof.
  unfold GroupNorm.commensurate_error, GroupNorm.data_format_error.
  destruct (format_d_head c) as (ch & rest & -> & Hch).
  simpl. intros [= H _]. contradiction.
Qed.

Lemma groups_differs g c :
  GroupNorm.groups_error g c <> GroupNorm.data_format_error.
Proof. unfold GroupNorm.groups_error, GroupNorm.data_format_error. simpl. discriminate. Qed.

Lemma int_raises (P : exn -> Prop) op v :
  (forall m, P (Exn TypeError m)) -> res_raises_only P (Coerce.int op v).
Proof.
  intros HP e He. unfold Coerce.int in He.
  raise_cases He; injection He as <-; apply HP.
Qed.

Lemma int_of_dim_raises (P : exn -> Prop) d :
  (forall m, P (Exn TypeError m)) -> res_raises_only P (tf.int_of_dim d).
Proof.
  intros HP e He. unfold tf.int_of_dim in He.
  raise_cases He; injection He as <-; apply HP.
Qed.

Lemma floordiv_raises (P : exn -> Prop) a b :
  (forall m, P (Exn ZeroDivisionError m)) -> res_raises_only P (floordiv a b).
Proof.
  intros HP e He. unfold floordiv in He.
  raise_cases He; injection He as <-; apply HP.
Qed.

Lemma mod_raises (P : exn -> Prop) a b :
  (forall m, P (Exn ZeroDivisionError m)) -> res_raises_only P (mod_ a b).
Proof.
  intros HP e He. unfold mod_ in He.
  raise_cases He; injection He as <-; apply HP.
Qed.

Lemma channels_per_group_raises (P : exn -> Prop) c g :
  (forall m, P (Exn TypeError m)) -> (forall m, P (Exn ZeroDivisionError m)) ->
  res_raises_only P (GroupNorm.channels_per_group c g).
Proof.
  intros H1 H2. unfold GroupNorm.channels_per_group.
  destruct c; [|apply res_raises_only_raise, H1].
  apply res_raises_only_bind; [apply int_raises, H1|intros; apply floordiv_raises, H2].
Qed.

(** The exceptions of GroupNorm.build other than its data format error. *)
Ltac gn_ro :=
  repeat first
    [ apply raises_only_ret | apply raises_only_mret
    | apply raises_only_getattr; discriminate
    | apply raises_only_setattr
    | apply raises_only_get_variable | apply raises_only_add_weights
    | apply raises_only_raise; first [apply groups_differs | apply commensurate_differs]
    | apply raises_only_lift;
      first [ apply getitem_raises | apply channels_per_group_raises
            | apply int_of_dim_raises | apply int_raises | apply mod_raises ];
      intros; discriminate
    | apply raises_only_bind; [|intros ?]
    | match goal with
      | |- raises_only _ (if ?b then _ else _) => destruct b
      end ].

Lemma GroupNorm_build_accepts x s df :
  valid_data_format df ->
  self s !! "data_format" = Some (VStr df) ->
  outcome (GroupNorm.build x) s <> Raise GroupNorm.data_format_error.
Proof.
  intros Hdf Hattr. unfold outcome, GroupNorm.build.
  rewrite bind_run. unfold lift at 1.
  destruct (tf.get_shape x) as [shape|e] eqn:E.
  2:{ simpl. intros [= ->].
      exact (get_shape_raises (fun e => e <> GroupNorm.data_format_error) x
               ltac:(intros; discriminate) _ E eq_refl). }
  destruct (negb (length shape =? 4)%nat); [simpl; discriminate|].
  rewrite bind_run. erewrite getattr_some by eassumption.
  destruct Hdf as [-> | ->]; cbn [Coerce.str_eq String.eqb Ascii.eqb Bool.eqb].
  - match goal with
    | |- fst (?m s) <> _ =>
        assert (Hro : raises_only (fun e => e <> GroupNorm.data_format_error) m)
    end.
    { gn_ro. }
    intros H. exact (Hro s _ H eq_refl).
  - rewrite bind_run, bind_run. erewrite getattr_some by eassumption.
    cbn [Coerce.str_eq String.eqb Ascii.eqb Bool.eqb].
    rewrite <- bind_run.
    match goal with
    | |- fst (?m s) <> _ =>
        assert (Hro : raises_only (fun e => e <> GroupNorm.data_format_error) m)
    end.
    { gn_ro. }
    intros H. exact (Hro s _ H eq_refl).
Qed.

Lemma GroupNorm_build_data_format s op args (shape : list dim) df :
  length shape = 4%nat ->
  self s !! "data_format" = Some (VStr df) ->
  ~ valid_data_format df ->
  GroupNorm.build (VTensor op args shape) s = (Raise GroupNorm.data_format_error, s).
Proof.
  intros Hlen Hattr Hdf. unfold GroupNorm.build.
  rewrite bind_run. cbn. rewrite Hlen. cbn.
  assert (H1 : String.eqb df "channels_last" = false).
  { apply String.eqb_neq. intros ->. apply Hdf. left. reflexivity. }
  assert (H2 : String.eqb df "channels_first" = false).
  { apply String.eqb_neq. intros ->. apply Hdf. right. reflexivity. }
  rewrite bind_run. erewrite getattr_some by eassumption. cbn [Coerce.str_eq].
  rewrite H1. rewrite bind_run, bind_run. erewrite getattr_some by eassumption.
  cbn [Coerce.str_eq]. rewrite H2. reflexivity.
Qed.

Lemma BatchNorm_init_accepts a s :
  valid_data_format (BatchNorm.data_format a) ->
  outcome (BatchNorm.__init__ a) s <> Raise BatchNorm.data_format_error.
Proof.
  intros Hdf H.
  assert (Hro : raises_only (fun e => e <> BatchNorm.data_format_error)
                  (BatchNorm.__init__ a)).
  { apply BatchNorm_init_raises; try (intros; discriminate).
    - left. discriminate.
    - right. exact Hdf. }
  exact (Hro s _ H eq_refl).
Qed.

Section HelperFormats.

Context {T S : Type} `{TensorOps T S}.

Lemma bias_scale_invalid (x b : T) f :
  f <> "NHWC" -> f <> "NCHW" ->
  _bias_scale x b f = Raise (Exn ValueError ("invalid data_format: " +:+ f)).
Proof.
  intros H1 H2. unfold _bias_scale.
  apply String.eqb_neq in H1, H2. rewrite H1, H2. reflexivity.
Qed.

Lemma bias_add_invalid (x b : T) f :
  f <> "NHWC" -> f <> "NCHW" ->
  _bias_add x b f = Raise (Exn ValueError ("invalid data_format: " +:+ f)).
Proof.
  intros H1 H2. unfold _bias_add.
  apply String.eqb_neq in H1, H2. rewrite H1, H2. reflexivity.
Qed.

Lemma bias_scale_NCHW (x b : T) n :
  t_dim0 b = Ok n -> _bias_scale x b "NCHW" = Ok (t_mul x (t_reshape b [n; 1; 1])).
Proof. intros Hn. unfold _bias_scale, _to_channel_first_bias. simpl. rewrite Hn. reflexivity. Qed.

Lemma bias_add_NCHW (x b : T) n :
  t_dim0 b = Ok n -> _bias_add x b "NCHW" = Ok (t_add x (t_reshape b [n; 1; 1])).
Proof. intros Hn. unfold _bias_add, _to_channel_first_bias. simpl. rewrite Hn. reflexivity. Qed.

End HelperFormats.



(** The helper batch_normalization looks its data format up in a dict
    first: given a string that is not a key it raises KeyError, not the
    ValueError of the two helpers it calls. *)
Example batch_normalization_key_error :
  batch_normalization image_batch image_batch image_batch None None (VFloat 1) "NHWC"
  = Raise (Exn KeyError "NHWC").
Proof. reflexivity. Qed.

(** ** The helper batch_normalization and the reference definition *)

Section Refinement.

Import Array.
Local Open Scope nat_scope.

Lemma stretch_id d i : i < d -> (if d =? 1 then 0 else i) = i.
Proof. intros. destruct (Nat.eqb_spec d 1); lia. Qed.

Lemma max_one d i : i < d -> Nat.max d 1 = d.
Proof. lia. Qed.

Lemma sqrt_pos_neq y : (y > 0)%R -> sqrt y <> 0%R.
Proof. intros Hy. apply Rgt_not_eq. apply sqrt_lt_R0. lra. Qed.

Variables n h w c : nat.
Variables x m v : array.
Variables beta gamma : option array.
Variable e : R.
Variables i j k l : nat.
Hypothesis Hm : shape m = [c].
Hypothesis Hv : shape v = [c].
Hypothesis Hbeta : has_shape [c] beta.
Hypothesis Hgamma : has_shape [c] gamma.
Hypothesis Hi : i < n.
Hypothesis Hj : j < h.
Hypothesis Hk : k < w.
Hypothesis Hl : l < c.
Hypothesis Hpos : (at_ v [l] + e > 0)%R.

Lemma batch_normalization_channels_last :
  shape x = [n; h; w; c] ->
  exists t,
    batch_normalization x m v beta gamma e "channels_last" = Ok t /\
    shape t = [n; h; w; c] /\
    at_ t [i; j; k; l]
    = reference (at_ x [i; j; k; l]) (at_ m [l]) (at_ v [l])
        (entry beta [l]) (entry gamma [l]) e.
Proof.
  intros Hx. pose proof (sqrt_pos_neq _ Hpos) as Hs.
  destruct x as [sx fx], m as [sm fm], v as [sv fv]. simpl in *. subst.
  destruct beta as [[sb fb]|], gamma as [[sg fg]|]; simpl in *; subst;
    eexists; (split; [reflexivity|]); split.
  all: cbn.
  all: rewrite ?Nat.max_id; try reflexivity.
  all: unfold reference, rsqrt; simpl;
    rewrite ?(stretch_id n i Hi), ?(stretch_id h j Hj),
            ?(stretch_id w k Hk), ?(stretch_id c l Hl);
    field; assumption.
Qed.

Lemma batch_normalization_dense :
  shape x = [n; c] ->
  exists t,
    batch_normalization x m v beta gamma e "channels_last" = Ok t /\
    shape t = [n; c] /\
    at_ t [i; l]
    = reference (at_ x [i; l]) (at_ m [l]) (at_ v [l])
        (entry beta [l]) (entry gamma [l]) e.
Proof.
  intros Hx. pose proof (sqrt_pos_neq _ Hpos) as Hs.
  destruct x as [sx fx], m as [sm fm], v as [sv fv]. simpl in *. subst.
  destruct beta as [[sb fb]|], gamma as [[sg fg]|]; simpl in *; subst;
    eexists; (split; [reflexivity|]); split.
  all: cbn.
  all: rewrite ?Nat.max_id; try reflexivity.
  all: unfold reference, rsqrt; simpl;
    rewrite ?(stretch_id n i Hi), ?(stretch_id c l Hl);
    field; assumption.
Qed.

Lemma batch_normalization_channels_first :
  shape x = [n; c; h; w] ->
  exists t,
    batch_normalization x m v beta gamma e "channels_first" = Ok t /\
    shape t = [n; c; h; w] /\
    at_ t [i; l; j; k]
    = reference (at_ x [i; l; j; k]) (at_ m [l]) (at_ v [l])
        (entry beta [l]) (entry gamma [l]) e.
Proof.
  intros Hx. pose proof (sqrt_pos_neq _ Hpos) as Hs.
  destruct x as [sx fx], m as [sm fm], v as [sv fv]. simpl in *. subst.
  destruct beta as [[sb fb]|], gamma as [[sg fg]|]; simpl in *; subst;
    eexists; (split; [reflexivity|]); split.
  all: cbn.
  all: change (Z.to_nat 1) with 1; rewrite ?Nat.max_id, ?Nat2Z.id, ?Nat.max_id;
    rewrite ?(max_one h j Hj), ?(max_one w k Hk); try reflexivity.
  all: cbn; rewrite ?(stretch_id n i Hi), ?(stretch_id h j Hj),
            ?(stretch_id w k Hk), ?(stretch_id c l Hl).
  all: replace ((l * 1 + 0) * 1 + 0) with l by lia;
    rewrite (Nat.mod_small l c Hl), ?(stretch_id c l Hl).
  all: unfold reference, rsqrt; simpl; field; assumption.
Qed.
End Refinement.




(** * Further properties *)

(** ** The helpers on arrays *)

Section HelperKeys.

Context {T S : Type} `{TensorOps T S}.


End HelperKeys.


Section HelperArrays.

Import Array.
Local Open Scope nat_scope.

Variables n h w c : nat.
Variables x b : array.
Variables i j k l : nat.
Hypothesis Hb : shape b = [c].
Hypothesis Hi : i < n.
Hypothesis Hj : j < h.
Hypothesis Hk : k < w.
Hypothesis Hl : l < c.

Lemma bias_helpers_channels_last :
  shape x = [n; h; w; c] ->
  exists ts ta,
    _bias_scale x b "NHWC" = Ok ts /\ _bias_add x b "NHWC" = Ok ta /\
    shape ts = [n; h; w; c] /\ shape ta = [n; h; w; c] /\
    at_ ts [i; j; k; l] = (at_ x [i; j; k; l] * at_ b [l])%R /\
    at_ ta [i; j; k; l] = (at_ x [i; j; k; l] + at_ b [l])%R.
Proof.
  intros Hx. destruct x as [sx fx], b as [sb fb]. simpl in *. subst.
  do 2 eexists. split; [reflexivity|]. split; [reflexivity|].
  cbn. rewrite ?Nat.max_id.
  rewrite ?(stretch_id n i Hi), ?(stretch_id h j Hj),
          ?(stretch_id w k Hk), ?(stretch_id c l Hl).
  repeat split; reflexivity.
Qed.

Lemma bias_helpers_channels_first :
  shape x = [n; c; h; w] ->
  exists ts ta,
    _bias_scale x b "NCHW" = Ok ts /\ _bias_add x b "NCHW" = Ok ta /\
    shape ts = [n; c; h; w] /\ shape ta = [n; c; h; w] /\
    at_ ts [i; l; j; k] = (at_ x [i; l; j; k] * at_ b [l])%R /\
    at_ ta [i; l; j; k] = (at_ x [i; l; j; k] + at_ b [l])%R.
Proof.
  intros Hx. destruct x as [sx fx], b as [sb fb]. simpl in *. subst.
  do 2 eexists. split; [reflexivity|]. split; [reflexivity|].
  cbn. change (Z.to_nat 1) with 1. rewrite ?Nat2Z.id, ?Nat.max_id.
  rewrite ?(max_one h j Hj), ?(max_one w k Hk).
  cbn. rewrite ?(stretch_id n i Hi), ?(stretch_id h j Hj),
          ?(stretch_id w k Hk), ?(stretch_id c l Hl).
  replace ((l * 1 + 0) * 1 + 0) with l by lia.
  rewrite (Nat.mod_small l c Hl).
  repeat split; reflexivity.
Qed.

End HelperArrays.

(** X2.  On arrays of four dimensions, _bias_scale multiplies and
    _bias_add adds, to every entry, the bias of the channel of that entry,
    with the channels last for 'NHWC' and second for 'NCHW'; the result
    has the shape of the input. *)
Theorem bias_helpers_on_arrays (n h w c : nat) (x b : Array.array) (i j k l : nat) :
  Array.shape b = [c] ->
  (i < n)%nat -> (j < h)%nat -> (k < w)%nat -> (l < c)%nat ->
  (Array.shape x = [n; h; w; c] ->
   exists ts ta,
     _bias_scale x b "NHWC" = Ok ts /\ _bias_add x b "NHWC" = Ok ta /\
     Array.shape ts = [n; h; w; c] /\ Array.shape ta = [n; h; w; c] /\
     Array.at_ ts [i; j; k; l] = (Array.at_ x [i; j; k; l] * Array.at_ b [l])%R /\
     Array.at_ ta [i; j; k; l] = (Array.at_ x [i; j; k; l] + Array.at_ b [l])%R) /\
  (Array.shape x = [n; c; h; w] ->
   exists ts ta,
     _bias_scale x b "NCHW" = Ok ts /\ _bias_add x b "NCHW" = Ok ta /\
     Array.shape ts = [n; c; h; w] /\ Array.shape ta = [n; c; h; w] /\
     Array.at_ ts [i; l; j; k] = (Array.at_ x [i; l; j; k] * Array.at_ b [l])%R /\
     Array.at_ ta [i; l; j; k] = (Array.at_ x [i; l; j; k] + Array.at_ b [l])%R).
Proof.
  intros Hb Hi Hj Hk Hl. split.
  - apply bias_helpers_channels_last; assumption.
  - apply bias_helpers_channels_first; assumption.
Qed.

Lemma bias_helpers_on_arrays_witness :
  exists ts ta,
    _bias_scale sample_x sample_gamma "NCHW" = Ok ts /\
    _bias_add sample_x sample_beta "NCHW" = Ok ta /\
    Array.at_ ts [0; 1; 0; 0]%nat = (3 * 2)%R /\
    Array.at_ ta [0; 1; 0; 0]%nat = (3 + 5)%R.
Proof.
  destruct (proj2 (bias_helpers_on_arrays 1 1 1 2 sample_x sample_gamma 0 0 0 1
                     eq_refl ltac:(lia) ltac:(lia) ltac:(lia) ltac:(lia)) eq_refl)
    as (ts & _ & Hs & _ & _ & _ & Hts & _).
  destruct (proj2 (bias_helpers_on_arrays 1 1 1 2 sample_x sample_beta 0 0 0 1
                     eq_refl ltac:(lia) ltac:(lia) ltac:(lia) ltac:(lia)) eq_refl)
    as (_ & ta & _ & Ha & _ & _ & _ & Hta).
  exists ts, ta. repeat split; assumption.
Defined.

Lemma broadcast_nil_r sh : Array.broadcast sh [] = sh.
Proof.
  unfold Array.broadcast. simpl.
  replace (Array.broadcast_rev (rev sh) []) with (rev sh) by (destruct (rev sh); reflexivity).
  apply rev_involutive.
Qed.

(** X3.  A bias of no dimension is broadcast by the 'NHWC' branch of the
    two helpers, and rejected by the 'NCHW' branch, where
    _to_channel_first_bias reads b.shape[0] and raises IndexError. *)
Theorem bias_helpers_scalar_bias (x b : Array.array) :
  Array.shape b = [] ->
  _bias_scale x b "NCHW" = Raise (Exn IndexError "list index out of range") /\
  _bias_add x b "NCHW" = Raise (Exn IndexError "list index out of range") /\
  (exists ts ta,
     _bias_scale x b "NHWC" = Ok ts /\ _bias_add x b "NHWC" = Ok ta /\
     Array.shape ts = Array.shape x /\ Array.shape ta = Array.shape x /\
     forall idx,
       Array.at_ ts idx
       = (Array.at_ x (Array.project (Array.shape x) idx) * Array.at_ b [])%R /\
       Array.at_ ta idx
       = (Array.at_ x (Array.project (Array.shape x) idx) + Array.at_ b [])%R).
Proof.
  intros Hb. destruct x as [sx fx], b as [sb fb]. simpl in Hb. subst sb.
  split; [reflexivity|]. split; [reflexivity|].
  do 2 eexists. split; [reflexivity|]. split; [reflexivity|].
  simpl. rewrite broadcast_nil_r. repeat split.
Qed.

Lemma bias_helpers_scalar_bias_witness :
  _bias_scale sample_x (Array.Arr [] (fun _ => 2%R)) "NCHW"
  = Raise (Exn IndexError "list index out of range").
Proof.
  apply (proj1 (bias_helpers_scalar_bias sample_x (Array.Arr [] (fun _ => 2%R)) eq_refl)).
Defined.

(** ** Edge cases of GroupNorm.build *)

(** X4.  GroupNorm.build rejects every input that does not have exactly
    four dimensions with an Exception (not a ValueError), before it reads
    any attribute of the layer: the state is the one it started in. *)
Theorem GroupNorm_build_rank s op args (shape : list dim) :
  length shape <> 4%nat ->
  GroupNorm.build (VTensor op args shape) s = (Raise GroupNorm.rank_error, s) /\
  exn_class GroupNorm.rank_error = Exception.
Proof.
  intros Hlen. split; [|reflexivity].
  unfold GroupNorm.build. rewrite bind_run. cbn.
  destruct (Nat.eqb_spec (length shape) 4); [contradiction|reflexivity].
Qed.

Lemma GroupNorm_build_rank_witness :
  GroupNorm.build sequence_batch gn3_applied = (Raise GroupNorm.rank_error, gn3_applied).
Proof.
  apply (proj1 (GroupNorm_build_rank gn3_applied "Placeholder" [VStr "x"]
                  [Some 8; Some 32; Some 6] ltac:(discriminate))).
Defined.

(** X5.  GroupNorm.build computes channels // groups before its two
    checks on the groups.  With zero groups it raises ZeroDivisionError,
    and with a channel dimension of unknown size TypeError, in both cases
    leaving the state as it was. *)
Theorem GroupNorm_build_division s op args (shape : list dim) df x0 g :
  length shape = 4%nat ->
  valid_data_format df ->
  self s !! "data_format" = Some (VStr df) ->
  self s !! "inputs" = Some x0 ->
  self s !! "groups" = Some (VInt g) ->
  (forall c, getitem shape (channel_index df) = Ok (Some c) -> g = 0 ->
     GroupNorm.build (VTensor op args shape) s = (Raise zero_division, s)) /\
  (getitem shape (channel_index df) = Ok None ->
     exists m, GroupNorm.build (VTensor op args shape) s = (Raise (Exn TypeError m), s)).
Proof.
  intros Hlen Hdf Hattr Hin Hg. split.
  - intros c Hc ->. unfold GroupNorm.build.
    rewrite bind_run. cbn. rewrite Hlen. cbn.
    destruct Hdf as [-> | ->]; cbn in Hc; gn_run Hc; reflexivity.
  - intros Hc. unfold GroupNorm.build.
    rewrite bind_run. cbn. rewrite Hlen. cbn.
    destruct Hdf as [-> | ->]; cbn in Hc; gn_run Hc; eexists; reflexivity.
Qed.

Lemma GroupNorm_build_division_witness :
  GroupNorm.build image_batch (gn_applied 0) = (Raise zero_division, gn_applied 0).
Proof.
  apply (proj1 (GroupNorm_build_division (gn_applied 0) "Placeholder" [VStr "x"]
                  [Some 8; Some 32; Some 32; Some 6] "channels_last" image_batch 0
                  eq_refl (or_introl eq_refl) eq_refl eq_refl eq_refl) 6);
    reflexivity.
Defined.

(** ** forward keeps the state *)

Section Stateless.

Context {A B : Type}.

Lemma stateless_bind (m : M A) (k : A -> M B) :
  stateless m -> (forall a, stateless (k a)) -> stateless (m ≫= k).
Proof.
  intros Hm Hk s. unfold final. rewrite bind_run.
  specialize (Hm s). unfold final in Hm.
  destruct (m s) as [[a|e] s']; simpl in *; subst; [apply Hk|reflexivity].
Qed.

Lemma stateless_ret (a : A) : stateless (ret a).
Proof. intros s. reflexivity. Qed.

Lemma stateless_raise e : stateless (raise e : M A).
Proof. intros s. reflexivity. Qed.

Lemma stateless_lift (r : res A) : stateless (lift r).
Proof. intros s. reflexivity. Qed.

End Stateless.

Lemma stateless_getattr cls name : stateless (Obj.getattr cls name).
Proof. intros s. unfold final, Obj.getattr. destruct (self s !! name); reflexivity. Qed.

Ltac stateless_tac :=
  repeat first
    [ apply stateless_ret | apply stateless_raise | apply stateless_lift
    | apply stateless_getattr
    | apply stateless_bind; [|intros ?]
    | match goal with
      | |- stateless (if ?b then _ else _) => destruct b
      end ].

(** X6.  The forward methods of LocalResponseNorm, InstanceNorm,
    GroupNorm and SwitchNorm leave the state as they found it, whether
    they return or raise: they create no variable, register nothing and
    set no attribute. *)
Theorem forward_is_stateless (x : value) :
  stateless (LocalResponseNorm.forward x) /\
  stateless (InstanceNorm.forward x) /\
  stateless (GroupNorm.forward x) /\
  stateless (SwitchNorm.forward x).
Proof.
  split; [|split; [|split]].
  - unfold LocalResponseNorm.forward. stateless_tac.
  - unfold InstanceNorm.forward. stateless_tac.
  - unfold GroupNorm.forward. stateless_tac.
  - unfold SwitchNorm.forward. cbn [SwitchNorm.moments]. stateless_tac.
Qed.

(** ** InstanceNorm *)



(** X8.  InstanceNorm.build concatenates self.name with a string first:
    on a layer whose name is not a string, as with the default None, it
    raises TypeError and leaves the state as it was. *)
Theorem InstanceNorm_build_needs_name s x v :
  self s !! "name" = Some v ->
  (forall n, v <> VStr n) ->
  exists m, InstanceNorm.build x s = (Raise (Exn TypeError m), s).
Proof.
  intros Hn Hv. unfold InstanceNorm.build. step.
  destruct v; try (eexists; reflexivity).
  exfalso. eapply Hv. reflexivity.
Qed.

Lemma InstanceNorm_build_needs_name_witness :
  exists m,
    InstanceNorm.build image_batch
      (final (InstanceNorm.__init__ InstanceNorm.defaults) empty_state)
    = (Raise (Exn TypeError m),
       final (InstanceNorm.__init__ InstanceNorm.defaults) empty_state).
Proof.
  apply (InstanceNorm_build_needs_name _ image_batch VNone); [reflexivity|discriminate].
Defined.



(** ** LocalResponseNorm *)


(** ** The padding the atrous layers store *)

Lemma upper_ascii_idempotent c : upper_ascii (upper_ascii c) = upper_ascii c.
Proof. destruct c as [[] [] [] [] [] [] [] []]; reflexivity. Qed.

Lemma upper_idempotent s : upper (upper s) = upper s.
Proof.
  induction s as [|c s IH]; simpl; [reflexivity|].
  rewrite upper_ascii_idempotent, IH. reflexivity.
Qed.

Lemma upper_length s : String.length (upper s) = String.length s.
Proof. induction s as [|c s IH]; simpl; [reflexivity|]. rewrite IH. reflexivity. Qed.

Lemma AtrousConv2dLayer_init_attrs a s :
  str_in (upper (AtrousConv2dLayer.padding a)) ["SAME"; "VALID"] = true ->
  let d := self (final (AtrousConv2dLayer.__init__ a) s) in
  d !! "padding" = Some (VStr (upper (AtrousConv2dLayer.padding a))) /\
  d !! "n_filter" = Some (AtrousConv2dLayer.n_filter a) /\
  d !! "filter_size" = Some (AtrousConv2dLayer.filter_size a) /\
  d !! "rate" = Some (AtrousConv2dLayer.rate a) /\
  d !! "W_init" = Some (AtrousConv2dLayer.W_init a) /\
  d !! "b_init" = Some (AtrousConv2dLayer.b_init a) /\
  d !! "act" = Some (AtrousConv2dLayer.act a) /\
  d !! "name" = Some (AtrousConv2dLayer.name a) /\
  d !! "prev_layer" = Some (AtrousConv2dLayer.prev_layer a) /\
  d !! "W_init_args" = Some (Layer.init_attr "W_init_args" (AtrousConv2dLayer.W_init_args a)) /\
  d !! "b_init_args" = Some (Layer.init_attr "b_init_args" (AtrousConv2dLayer.b_init_args a)).
Proof.
  intros Hp d. unfold d, final, AtrousConv2dLayer.__init__. rewrite Hp.
  cbn [negb Layer.__init__]. repeat step.
  repeat split; look.
Qed.

Lemma AtrousDeConv2dLayer_init_attrs a s :
  str_in (upper (AtrousDeConv2dLayer.padding a)) ["SAME"; "VALID"] = true ->
  let d := self (final (AtrousDeConv2dLayer.__init__ a) s) in
  d !! "padding" = Some (VStr (upper (AtrousDeConv2dLayer.padding a))) /\
  d !! "shape" = Some (AtrousDeConv2dLayer.shape a) /\
  d !! "rate" = Some (AtrousDeConv2dLayer.rate a) /\
  d !! "W_init" = Some (AtrousDeConv2dLayer.W_init a) /\
  d !! "b_init" = Some (AtrousDeConv2dLayer.b_init a) /\
  d !! "act" = Some (AtrousDeConv2dLayer.act a) /\
  d !! "name" = Some (AtrousDeConv2dLayer.name a) /\
  d !! "prev_layer" = Some (AtrousDeConv2dLayer.prev_layer a) /\
  d !! "W_init_args" = Some (Layer.init_attr "W_init_args" (AtrousDeConv2dLayer.W_init_args a)) /\
  d !! "b_init_args" = Some (Layer.init_attr "b_init_args" (AtrousDeConv2dLayer.b_init_args a)).
Proof.
  intros Hp d. unfold d, final, AtrousDeConv2dLayer.__init__. rewrite Hp.
  cbn [negb Layer.__init__]. repeat step.
  repeat split; look.
Qed.



(** X12.  The atrous constructors do not distinguish the case of the
    padding: a padding and its upper-cased form give the same outcome and
    the same state. *)
Theorem padding_is_case_insensitive
    pl nf fs r (p : string) Wi bi Wa ba act nm (sh : value) (s : state) :
  AtrousConv2dLayer.__init__ (AtrousConv2dLayer.Kwargs pl nf fs r p Wi bi Wa ba act nm) s
  = AtrousConv2dLayer.__init__
      (AtrousConv2dLayer.Kwargs pl nf fs r (upper p) Wi bi Wa ba act nm) s /\
  AtrousDeConv2dLayer.__init__ (AtrousDeConv2dLayer.Kwargs pl sh r p Wi bi Wa ba act nm) s
  = AtrousDeConv2dLayer.__init__
      (AtrousDeConv2dLayer.Kwargs pl sh r (upper p) Wi bi Wa ba act nm) s.
Proof.
  unfold AtrousConv2dLayer.__init__, AtrousDeConv2dLayer.__init__. simpl.
  rewrite upper_idempotent. split; reflexivity.
Qed.

(** ** Variable scopes *)

Section ScopeNeutral.

Context {A B : Type}.

Lemma scope_neutral_bind (m : M A) (k : A -> M B) :
  scope_neutral m -> (forall a, scope_neutral (k a)) -> scope_neutral (m ≫= k).
Proof.
  intros Hm Hk s. unfold final. rewrite bind_run.
  specialize (Hm s). unfold final in Hm.
  destruct (m s) as [[a|e] s']; simpl in *; [|assumption].
  specialize (Hk a s'). unfold final in Hk. congruence.
Qed.

(** The scope is left again whatever the body does. *)
Lemma scope_neutral_variable_scope name (m : M A) :
  scope_neutral (tf.variable_scope name m).
Proof.
  intros s. unfold final, tf.variable_scope.
  destruct (m _) as [r s']. reflexivity.
Qed.

Lemma stateless_scope_neutral (m : M A) : stateless m -> scope_neutral m.
Proof. intros Hm s. rewrite Hm. reflexivity. Qed.

End ScopeNeutral.

Lemma scope_neutral_setattr name v : scope_neutral (Obj.setattr name v).
Proof. intros s. reflexivity. Qed.

Lemma scope_neutral_logging_info t : scope_neutral (logging_info t).
Proof. intros s. reflexivity. Qed.

Lemma scope_neutral_add_layers o : scope_neutral (Layer._add_layers o).
Proof. intros s. reflexivity. Qed.

Lemma scope_neutral_add_params o : scope_neutral (Layer._add_params o).
Proof. intros s. reflexivity. Qed.

Lemma scope_neutral_Layer_init kwargs : scope_neutral (Layer.__init__ kwargs).
Proof.
  induction kwargs as [|[k v] rest IH]; simpl.
  - intros s. reflexivity.
  - apply scope_neutral_bind; [apply scope_neutral_setattr|intros _].
    apply scope_neutral_bind; [|intros _; exact IH].
    destruct (String.eqb k "prev_layer"); [|intros s; reflexivity].
    apply scope_neutral_bind; [intros s; reflexivity|intros o; apply scope_neutral_setattr].
Qed.

Ltac scope_tac :=
  repeat first
    [ apply scope_neutral_variable_scope
    | apply scope_neutral_setattr | apply scope_neutral_logging_info
    | apply scope_neutral_add_layers | apply scope_neutral_add_params
    | apply scope_neutral_Layer_init
    | apply stateless_scope_neutral;
      first [ apply stateless_ret | apply stateless_raise | apply stateless_lift
            | apply stateless_getattr ]
    | apply scope_neutral_bind; [|intros ?]
    | match goal with
      | |- scope_neutral (if ?b then _ else _) => destruct b
      end ].


(** ** The rank BatchNorm needs *)

Lemma getitem_short {A} (l : list A) i :
  (Z.of_nat (length l) <= i) -> getitem l i = Raise index_error.
Proof.
  intros Hi. unfold getitem.
  assert (H0 : (i <? 0) = false) by (apply Z.ltb_ge; lia).
  rewrite H0.
  assert (H1 : (i <? 0) || (Z.of_nat (length l) <=? i) = true).
  { apply orb_true_iff. right. apply Z.leb_le. exact Hi. }
  rewrite H1. reflexivity.
Qed.



(** ** What compiling an atrous layer creates *)

Lemma to_dim_of_dim d : tf.to_dim (tf.of_dim d) = d.
Proof. destruct d; reflexivity. Qed.

Lemma getitem_nth {A} (l : list A) (i : nat) x :
  nth_error l i = Some x -> getitem l (Z.of_nat i) = Ok x.
Proof.
  intros Hx. unfold getitem.
  assert (Hi : (i < length l)%nat) by (apply nth_error_Some; congruence).
  assert (H0 : (Z.of_nat i <? 0) = false) by (apply Z.ltb_ge; lia).
  rewrite H0.
  assert (H1 : (Z.of_nat i <? 0) || (Z.of_nat (length l) <=? Z.of_nat i) = false).
  { apply orb_false_iff. split; [exact H0|apply Z.leb_gt; lia]. }
  rewrite H1, Nat2Z.id, Hx. reflexivity.
Qed.

Lemma getitem_0 {A} (x : A) l : getitem (x :: l) 0 = Ok x.
Proof. apply (getitem_nth (x :: l) 0). reflexivity. Qed.

Lemma getitem_1 {A} (x y : A) l : getitem (x :: y :: l) 1 = Ok y.
Proof. apply (getitem_nth (x :: y :: l) 1). reflexivity. Qed.

Lemma getitem_2 {A} (x y z : A) l : getitem (x :: y :: z :: l) 2 = Ok z.
Proof. apply (getitem_nth (x :: y :: z :: l) 2). reflexivity. Qed.

Lemma get_tf_variable_run name shape init kw s :
  Layer._get_tf_variable name shape init kw s =
    let v := TfVariable (tf.scoped_name (scopes s) name) shape init true in
    (Ok (variable_tensor v),
     set_self (fun d => <["_local_weights" := VList (local_weights s ++ [variable_tensor v])]> d)
       (set_variables (fun vs => vs ++ [v]) s)).
Proof. reflexivity. Qed.

Lemma apply_activation_none cls x s :
  self s !! "act" = Some VNone -> Layer._apply_activation cls x s = (Ok x, s).
Proof. intros Ha. unfold Layer._apply_activation. step. reflexivity. Qed.

Ltac weights Hlw :=
  unfold local_weights; cbn;
  repeat (rewrite lookup_insert_ne by discriminate);
  rewrite ?lookup_insert_eq, ?Hlw.

Lemma AtrousConv2dLayer_compile_run s prev op args (shape : list dim) c n f0 f1 frest
    nf Wi kwW bi kwb rate padding :
  Obj.getattr_of prev "outputs" = Ok (VTensor op args shape) ->
  getitem shape (-1) = Ok (Some c) ->
  self s !! "name" = Some (VStr n) ->
  self s !! "filter_size" = Some (VList (f0 :: f1 :: frest)) ->
  self s !! "n_filter" = Some nf ->
  self s !! "W_init" = Some Wi ->
  self s !! "W_init_args" = Some (VDict kwW) ->
  self s !! "b_init" = Some bi ->
  self s !! "b_init_args" = Some (VDict kwb) ->
  self s !! "rate" = Some rate ->
  self s !! "padding" = Some padding ->
  self s !! "act" = Some VNone ->
  self s !! "_local_weights" = None ->
  let W := TfVariable (tf.scoped_name (n :: scopes s) "W_atrous_conv2d")
             (VList [f0; f1; VInt c; nf]) Wi true in
  let b := TfVariable (tf.scoped_name (n :: scopes s) "b_atrous_conv2d")
             (VList [nf]) bi true in
  let created := if truthy bi then [W; b] else [W] in
  let conv := tf.op "tf.nn.atrous_conv2d"
                [VTensor op args shape; variable_tensor W; rate; padding]
                (tf.conv_shape (VTensor op args shape) nf) in
  let out := if truthy bi
             then tf.op "tf.nn.bias_add" [conv; variable_tensor b] (tf.shape_of conv)
             else conv in
  exists s',
    AtrousConv2dLayer.compile prev s = (Ok tt, s') /\
    variables s' = (variables s ++ created) /\
    params s' = (params s ++ map variable_tensor created) /\
    graph s' = (graph s ++ [out]) /\
    self s' !! "outputs" = Some out /\
    self s' !! "inputs" = Some (VTensor op args shape) /\
    scopes s' = scopes s.
Proof.
  intros Ho Hc Hn Hf Hnf HWi HkW Hbi Hkb Hr Hp Hact Hlw W b created conv out.
  unfold out, conv, created, AtrousConv2dLayer.compile, Layer.compile,
    Layer._parse_inputs.
  rewrite bind_run, bind_run. unfold lift at 1. rewrite Ho. cbn.
  step. rewrite bind_run. cbn.
  rewrite bind_run. unfold tf.variable_scope at 1. cbn beta.
  repeat (repeat step; rewrite ?Hc, ?getitem_0, ?getitem_1; cbn).
  rewrite get_tf_variable_run. cbn. weights Hlw.
  repeat step.
  destruct (truthy bi) eqn:Hb.
  - cbn. repeat step. rewrite get_tf_variable_run. cbn. weights Hlw.
    repeat step. try (rewrite apply_activation_none by look). cbn.
    repeat step.
    eexists. split; [reflexivity|]. cbn. rewrite <- !app_assoc.
    repeat split; try reflexivity; look.
  - cbn. repeat step. try (rewrite apply_activation_none by look). cbn.
    repeat step.
    eexists. split; [reflexivity|]. cbn.
    repeat split; try reflexivity; look.
Qed.

Lemma init_attr_args k v kw :
  str_in k ["prev_layer"; "act"; "name"] = false ->
  v = VNone \/ v = VDict kw ->
  exists kw', Layer.init_attr k v = VDict kw'.
Proof.
  intros Hk [-> | ->]; unfold Layer.init_attr; rewrite Hk; cbn; eauto.
Qed.



Lemma getitem_minus_2 {A} (w x y z : A) : getitem [w; x; y; z] (-2) = Ok y.
Proof. reflexivity. Qed.

Lemma AtrousDeConv2dLayer_compile_run s prev op args (shape : list dim) n s0 s1 s2 s3
    Wi kwW bi kwb rate padding :
  Obj.getattr_of prev "outputs" = Ok (VTensor op args shape) ->
  self s !! "name" = Some (VStr n) ->
  self s !! "shape" = Some (VList [s0; s1; s2; s3]) ->
  self s !! "W_init" = Some Wi ->
  self s !! "W_init_args" = Some (VDict kwW) ->
  self s !! "b_init" = Some bi ->
  self s !! "b_init_args" = Some (VDict kwb) ->
  self s !! "rate" = Some rate ->
  self s !! "padding" = Some padding ->
  self s !! "act" = Some VNone ->
  self s !! "_local_weights" = None ->
  let W := TfVariable (tf.scoped_name (n :: scopes s) "W_atrous_conv2d_transpose")
             (VList [s0; s1; s2; s3]) Wi true in
  let b := TfVariable (tf.scoped_name (n :: scopes s) "b_atrous_conv2d_transpose")
             s2 bi true in
  let created := if truthy bi then [W; b] else [W] in
  let out_shape := AtrousDeConv2dLayer.compute_deconv2d_output_shape
                     [VTensor op args shape; s0; s1; VInt 1; VInt 1; s2; padding;
                      VStr "NHWC"] in
  let conv := tf.op "tf.nn.atrous_conv2d_transpose"
                [VTensor op args shape; variable_tensor W; out_shape; rate; padding]
                (tf.conv_shape (VTensor op args shape) s2) in
  let out := if truthy bi
             then tf.op "tf.nn.bias_add" [conv; variable_tensor b] (tf.shape_of conv)
             else conv in
  exists s',
    AtrousDeConv2dLayer.compile prev s = (Ok tt, s') /\
    variables s' = (variables s ++ created) /\
    params s' = (params s ++ map variable_tensor created) /\
    graph s' = (graph s ++ [out]) /\
    self s' !! "outputs" = Some out /\
    self s' !! "out_shape" = Some out_shape /\
    scopes s' = scopes s.
Proof.
  intros Ho Hn Hsh HWi HkW Hbi Hkb Hr Hp Hact Hlw W b created out_shape conv out.
  unfold out, conv, out_shape, created, AtrousDeConv2dLayer.compile, Layer.compile,
    Layer._parse_inputs.
  rewrite bind_run, bind_run. unfold lift at 1. rewrite Ho. cbn.
  step. rewrite bind_run. cbn.
  rewrite bind_run. unfold tf.variable_scope at 1. cbn beta.
  repeat step.
  rewrite get_tf_variable_run. cbn. weights Hlw.
  repeat (repeat step; rewrite ?getitem_0, ?getitem_1, ?getitem_2; cbn).
  destruct (truthy bi) eqn:Hb.
  - cbn. repeat (repeat step; rewrite ?getitem_minus_2; cbn).
    rewrite get_tf_variable_run. cbn. weights Hlw.
    repeat step. try (rewrite apply_activation_none by look). cbn.
    rewrite bind_run, bind_run. unfold lift at 1. cbn.
    repeat step.
    eexists. split; [reflexivity|]. cbn. rewrite <- !app_assoc.
    repeat split; try reflexivity; look.
  - cbn. repeat step. try (rewrite apply_activation_none by look). cbn.
    rewrite bind_run, bind_run. unfold lift at 1. cbn.
    repeat step.
    eexists. split; [reflexivity|]. cbn.
    repeat split; try reflexivity; look.
Qed.




